(** * MasterFisher: resolution of an identifier against package, tank and FHIR definitions

    Shallow embedding of [src/utils/MasterFisher.ts] (class [MasterFisher]).

    - The three catalogs ([Package], [FSHTank], [FHIRDefinitions]) are external
      collaborators: each is a record of the lookup functions the resolver
      calls on it.  A lookup that yields [undefined]/[null] is [None].
    - A catalog builds a fresh [Metadata] object on every query, so the
      in-place updates of [fixMetadata] are functional record updates.
    - [logger.error] is a writer effect: every operation returns the list of
      diagnostics it emitted, in order.
    - Dereferencing an absent catalog ([this.fhir.f(...)], [this.pkg.config])
      raises a [TypeError]; this is the [Thrown] outcome.
    - The [while] loop of [findSdType] and the nested [fishForMetadata] call of
      [fixMetadata] are bounded by a fuel argument; [OutOfFuel] is the outcome
      of a run that needs more of it.  A run that ends otherwise is the same
      with any larger fuel ([fishForMetadata_more_fuel]).  A run that is out
      of fuel for every fuel is a recursion without end, which a JavaScript
      engine stops with a [RangeError] when its call stack is full; [Thrown]
      is not that error.
    - The constructor stores its three optional arguments; the
      [defaultFHIRVersion] it computes from them, which the three operations
      do not use, is the function [defaultFHIRVersion]. *)

From Stdlib Require Import String List Bool Arith Lia.
Import ListNotations.
Local Open Scope string_scope.
Local Open Scope list_scope.

Set Implicit Arguments.

(** ** JavaScript values used by the resolver *)

(** [!s] on a value of type [string | undefined]: [undefined] and the empty
    string are falsy. *)
Definition falsy (s : option string) : bool :=
  match s with
  | None => true
  | Some s' => String.eqb s' ""
  end.

(** [a === b] on values of type [string | undefined]. *)
Definition strictEq (a b : option string) : bool :=
  match a, b with
  | None, None => true
  | Some x, Some y => String.eqb x y
  | _, _ => false
  end.

(** Interpolation [`${s}`] of a value of type [string | undefined]. *)
Definition interpolate (s : option string) : string :=
  match s with
  | Some s' => s'
  | None => "undefined"
  end.

(** The line feed of the ["\n"] escape. *)
Definition newline : string := String (Ascii.ascii_of_nat 10) EmptyString.

(** ** Metadata *)

(** Modelled from the spec: the [Metadata] interface of [./Fishable] is not
    part of the sources at hand; these are the fields the spec lists, which
    are also exactly the fields [MasterFisher] reads or writes.

    A [Metadata] is a JavaScript object.  [id] and [name] are always there.
    For each optional property the object either has no own key ([None]), or
    has the key holding [undefined] ([Some None]), or has the key holding a
    string ([Some (Some s)]).  Reading the property gives [undefined] in the
    first two cases alike; lodash [isEqual] tells them apart. *)
Record Metadata : Type := MetadataObject {
  id : string;
  name : string;
  own_sdType : option (option string);
  own_resourceType : option (option string);
  own_url : option (option string);
  own_parent : option (option string);
  own_instanceUsage : option (option string)
}.

(** Reading an optional property: [undefined] when the key is missing. *)
Definition readProperty (own : option (option string)) : option string :=
  match own with
  | Some value => value
  | None => None
  end.

(** [metadata.sdType] *)
Definition sdType (m : Metadata) : option string := readProperty (own_sdType m).

(** [metadata.resourceType] *)
Definition resourceType (m : Metadata) : option string :=
  readProperty (own_resourceType m).

(** [metadata.url] *)
Definition url (m : Metadata) : option string := readProperty (own_url m).

(** [metadata.parent] *)
Definition parent (m : Metadata) : option string := readProperty (own_parent m).

(** [metadata.instanceUsage] *)
Definition instanceUsage (m : Metadata) : option string :=
  readProperty (own_instanceUsage m).

(** An optional property of an object literal that lists only the
    properties it has a value for. *)
Definition ownIfDefined (value : option string) : option (option string) :=
  match value with
  | Some s => Some (Some s)
  | None => None
  end.

(** The object with the given values and no key for a property without
    value. *)
Definition mkMetadata (id' name' : string)
  (sdType' resourceType' url' parent' instanceUsage' : option string) : Metadata :=
  MetadataObject id' name' (ownIfDefined sdType') (ownIfDefined resourceType')
    (ownIfDefined url') (ownIfDefined parent') (ownIfDefined instanceUsage').

(** [metadata.sdType = v]: the object has the key [sdType] afterwards, also
    when [v] is [undefined]. *)
Definition set_sdType (m : Metadata) (v : option string) : Metadata :=
  MetadataObject (id m) (name m) (Some v) (own_resourceType m) (own_url m)
    (own_parent m) (own_instanceUsage m).

(** [metadata.resourceType = v]: the object has the key [resourceType]
    afterwards, also when [v] is [undefined]. *)
Definition set_resourceType (m : Metadata) (v : option string) : Metadata :=
  MetadataObject (id m) (name m) (own_sdType m) (Some v) (own_url m)
    (own_parent m) (own_instanceUsage m).

(** [metadata.url = v] for a string [v], the only assignment to [url] there
    is; [None] stands for no assignment, and leaves the object as it is. *)
Definition set_url (m : Metadata) (v : option string) : Metadata :=
  match v with
  | Some s =>
      MetadataObject (id m) (name m) (own_sdType m) (own_resourceType m)
        (Some (Some s)) (own_parent m) (own_instanceUsage m)
  | None => m
  end.

(** Every property of [a] reads as it does in [b]. *)
Definition sameProperties (a b : Metadata) : Prop :=
  id a = id b /\ name a = name b /\ sdType a = sdType b
  /\ resourceType a = resourceType b /\ url a = url b /\ parent a = parent b
  /\ instanceUsage a = instanceUsage b.

Definition Metadata_eq_dec (a b : Metadata) : {a = b} + {a <> b}.
Proof.
  repeat decide equality; apply string_dec.
Defined.

(** lodash [isEqual] on two [Metadata] objects: the same own keys, holding
    the same values. *)
Definition isEqual (a b : Metadata) : bool :=
  if Metadata_eq_dec a b then true else false.

(** lodash [uniqWith(array, comparator)]: a value is appended to the result
    unless the comparator relates it to a value already kept. *)
Definition uniqWith (A : Type) (comparator : A -> A -> bool) (array : list A) : list A :=
  fold_left
    (fun result value =>
       if existsb (fun seen => comparator value seen) result
       then result
       else result ++ [value])
    array [].

(** The loop of [uniqWith isEqual], started from any list of values already kept. *)
Definition uniqInto (kept array : list Metadata) : list Metadata :=
  fold_left
    (fun result value =>
       if existsb (fun seen => isEqual value seen) result
       then result
       else result ++ [value])
    array kept.

(** ** The catalogs *)

(** What [MasterFisher] reads of a source entity returned by [FSHTank.fish]
    and [FSHTank.fishAll]; [instanceOf] is [Some] exactly for an entity that is
    [instanceof Instance]. *)
Module FshEntity.
Record t (SourceInfo : Type) : Type := make {
  id : string;
  name : string;
  instanceOf : option string;
  sourceInfo : SourceInfo
}.
End FshEntity.

Module Package.
Record t (Type_ RawDefinition : Type) : Type := make {
  fishForFHIR : string -> list Type_ -> option RawDefinition;
  fishForMetadata : string -> list Type_ -> option Metadata;
  fishForMetadatas : string -> list Type_ -> list Metadata;
  (** [config.canonical] *)
  canonical : string
}.
End Package.

Module FSHTank.
Record t (Type_ SourceInfo : Type) : Type := make {
  resolveAlias : string -> option string;
  fish : string -> list Type_ -> option (FshEntity.t SourceInfo);
  fishAll : string -> list Type_ -> list (FshEntity.t SourceInfo);
  fishForMetadata : string -> list Type_ -> option Metadata;
  fishForMetadatas : string -> list Type_ -> list Metadata
}.
End FSHTank.

Module FHIRDefinitions.
Record t (Type_ RawDefinition : Type) : Type := make {
  fishForPredefinedResource : string -> list Type_ -> option RawDefinition;
  fishForPredefinedResourceMetadata : string -> list Type_ -> option Metadata;
  fishForPredefinedResourceMetadatas : string -> list Type_ -> list Metadata;
  fishForFHIR : string -> list Type_ -> option RawDefinition;
  fishForMetadata : string -> list Type_ -> option Metadata;
  fishForMetadatas : string -> list Type_ -> list Metadata
}.
End FHIRDefinitions.

(** ** Effects *)

Inductive Outcome (A : Type) : Type :=
| Returned (a : A)
| Thrown
| OutOfFuel.

Arguments Thrown {A}.
Arguments OutOfFuel {A}.

(** One call of [logger.error(message, sourceInfo)]. *)
Record Diagnostic (SourceInfo : Type) : Type := mkDiagnostic {
  message : string;
  location : option SourceInfo
}.

(** A run: how it ended, and the diagnostics it emitted. *)
Definition Run (SourceInfo A : Type) : Type :=
  (Outcome A * list (Diagnostic SourceInfo))%type.

Section Effects.
Context {SourceInfo : Type}.

Definition ret (A : Type) (a : A) : Run SourceInfo A := (Returned a, []).

Definition throw (A : Type) : Run SourceInfo A := (Thrown, []).

Definition outOfFuel (A : Type) : Run SourceInfo A := (OutOfFuel, []).

(** [logger.error(msg, loc)] *)
Definition error (msg : string) (loc : option SourceInfo) : Run SourceInfo unit :=
  (Returned tt, [mkDiagnostic msg loc]).

(** Sequencing: the diagnostics of [m], then those of [k]; a run that threw
    or ran out of fuel keeps the diagnostics emitted so far. *)
Definition bind (A B : Type) (m : Run SourceInfo A) (k : A -> Run SourceInfo B)
  : Run SourceInfo B :=
  match m with
  | (Returned a, d) => let (r, d') := k a in (r, d ++ d')
  | (Thrown, d) => (Thrown, d)
  | (OutOfFuel, d) => (OutOfFuel, d)
  end.

(** [array.map(f)] for an effectful [f]: left to right, stopping at the
    first call that does not return. *)
Fixpoint mapM (A B : Type) (f : A -> Run SourceInfo B) (l : list A)
  : Run SourceInfo (list B) :=
  match l with
  | [] => ret []
  | x :: rest =>
      bind (f x) (fun y => bind (mapM f rest) (fun ys => ret (y :: ys)))
  end.
End Effects.

Arguments throw {SourceInfo A}.
Arguments outOfFuel {SourceInfo A}.

Declare Scope run_scope.
Delimit Scope run_scope with run.
Notation "x <- m ;; k" := (bind m (fun x => k))
  (at level 61, m at next level, right associativity) : run_scope.
Notation "m ;;; k" := (bind m (fun _ => k))
  (at level 61, right associativity) : run_scope.

(** ** The resolver *)

Section MasterFisher.
Context {Type_ RawDefinition SourceInfo : Type}.

Local Open Scope run_scope.

(** Anything in the [fishables] array: one of the three catalogs, each used
    through the [Fishable] interface. *)
Inductive Fishable : Type :=
| OfPackage (p : Package.t Type_ RawDefinition)
| OfFSHTank (t : FSHTank.t Type_ SourceInfo)
| OfFHIRDefinitions (f : FHIRDefinitions.t Type_ RawDefinition).

(** [fishable.fishForMetadata(item, ...types)] *)
Definition Fishable_fishForMetadata (fishable : Fishable) (item : string)
  (types : list Type_) : option Metadata :=
  match fishable with
  | OfPackage p => Package.fishForMetadata p item types
  | OfFSHTank t => FSHTank.fishForMetadata t item types
  | OfFHIRDefinitions f => FHIRDefinitions.fishForMetadata f item types
  end.

(** [fishable.fishForMetadatas(item, ...types)] *)
Definition Fishable_fishForMetadatas (fishable : Fishable) (item : string)
  (types : list Type_) : list Metadata :=
  match fishable with
  | OfPackage p => Package.fishForMetadatas p item types
  | OfFSHTank t => FSHTank.fishForMetadatas t item types
  | OfFHIRDefinitions f => FHIRDefinitions.fishForMetadatas f item types
  end.

(** The constructor arguments [tank?], [fhir?], [pkg?]. *)
Record MasterFisher : Type := mkMasterFisher {
  tank : option (FSHTank.t Type_ SourceInfo);
  fhir : option (FHIRDefinitions.t Type_ RawDefinition);
  pkg : option (Package.t Type_ RawDefinition)
}.

Variable this : MasterFisher.

(** [this.tank?.resolveAlias(item) ?? item] *)
Definition resolveAlias (item : string) : string :=
  match tank this with
  | Some t =>
      match FSHTank.resolveAlias t item with
      | Some target => target
      | None => item
      end
  | None => item
  end.

Definition present (A : Type) (inj : A -> Fishable) (c : option A) : list Fishable :=
  match c with
  | Some a => [inj a]
  | None => []
  end.

(** [[this.pkg, this.tank, this.fhir].filter(f => f != null)] *)
Definition fishables : list Fishable :=
  present OfPackage (pkg this) ++ present OfFSHTank (tank this)
    ++ present OfFHIRDefinitions (fhir this).

(** [fishForFHIR(item, ...types)] *)
Definition fishForFHIR (item : string) (types : list Type_)
  : Run SourceInfo (option RawDefinition) :=
  let item := resolveAlias item in
  match fhir this with
  | None => throw
  | Some f =>
      match FHIRDefinitions.fishForPredefinedResource f item types with
      | Some result => ret (Some result)
      | None =>
          let result :=
            match pkg this with
            | Some p => Package.fishForFHIR p item types
            | None => None
            end in
          match result with
          | Some _ => ret result
          | None =>
              let inTank :=
                match tank this with
                | Some t => FSHTank.fish t item types
                | None => None
                end in
              match inTank with
              | Some _ => ret None
              | None => ret (FHIRDefinitions.fishForFHIR f item types)
              end
          end
      end
  end.

(** The first fishable, in array order, whose [fishForMetadata] is not
    [null], with its result: the [for] loops of [fishForMetadata] and
    [findSdType] stop there. *)
Fixpoint firstMatch (fs : list Fishable) (item : string) (types : list Type_)
  : option (Fishable * Metadata) :=
  match fs with
  | [] => None
  | fishable :: rest =>
      match Fishable_fishForMetadata fishable item types with
      | Some result => Some (fishable, result)
      | None => firstMatch rest item types
      end
  end.

(** The message [findSdType] logs when the walk revisits a url. *)
Definition circularMessage (history : list Metadata) (parentResult : Metadata) : string :=
  let message :=
    ("Circular dependency detected on parent relationships: "
       ++ String.concat " < " (map name (history ++ [parentResult])%list))%string in
  let fhirMeta :=
    match fhir this with
    | Some f =>
        match FHIRDefinitions.fishForMetadata f (name parentResult) [] with
        | Some m => Some m
        | None => FHIRDefinitions.fishForMetadata f (id parentResult) []
        end
    | None => None
    end in
  match fhirMeta with
  | Some m =>
      (message ++ newline ++ "  If the parent " ++ name parentResult
         ++ " is intended to refer to the FHIR resource, use its URL: "
         ++ interpolate (url m))%string
  | None => message
  end.

(** [fishable instanceof FSHTank ? fishable.fish(parent)?.sourceInfo : undefined] *)
Definition circularLocation (fishable : Fishable) (parent : string) : option SourceInfo :=
  match fishable with
  | OfFSHTank t => option_map (@FshEntity.sourceInfo _) (FSHTank.fish t parent [])
  | _ => None
  end.

(** The [while] loop of [findSdType], on its three variables. *)
Fixpoint findSdType_loop (fuel : nat) (types : list Type_) (fs : list Fishable)
  (history : list Metadata) (sdType' parent' : option string)
  : Run SourceInfo (option string) :=
  match sdType', parent' with
  | None, Some parent0 =>
      match fuel with
      | O => outOfFuel
      | S fuel' =>
          let parent1 := resolveAlias parent0 in
          match firstMatch fs parent1 types with
          | Some (fishable, parentResult) =>
              if existsb (fun md => strictEq (url md) (url parentResult)) history
              then
                error (circularMessage history parentResult)
                      (circularLocation fishable parent1) ;;;
                ret None
              else
                findSdType_loop fuel' types fs (history ++ [parentResult])
                  (sdType parentResult) (parent parentResult)
          | None => findSdType_loop fuel' types fs history None None
          end
      end
  | _, _ => ret sdType'
  end.

(** [findSdType(meta, types, fishables)] *)
Definition findSdType (fuel : nat) (meta : Metadata) (types : list Type_)
  (fs : list Fishable) : Run SourceInfo (option string) :=
  findSdType_loop fuel types fs [meta] (sdType meta) (parent meta).

(** The [instanceOf] of the entity [fixMetadata] finds for a tank record
    without [resourceType]: [fishAll(...).find(e => e.id == metadata.id &&
    e.name == metadata.name)], when that entity is an [Instance]. *)
Definition instanceOfFor (t : FSHTank.t Type_ SourceInfo) (metadata : Metadata)
  (item : string) (types : list Type_) : option string :=
  match
    find (fun e => String.eqb (FshEntity.id e) (id metadata)
                   && String.eqb (FshEntity.name e) (name metadata))
         (FSHTank.fishAll t item types)
  with
  | Some fshDefinition => FshEntity.instanceOf fshDefinition
  | None => None
  end.

(** The tank branch of [fixMetadata]; [lookup] is [this.fishForMetadata]. *)
Definition fixTankMetadata (lookup : string -> Run SourceInfo (option Metadata))
  (fuel : nat) (t : FSHTank.t Type_ SourceInfo) (metadata : Metadata)
  (item : string) (types : list Type_) (fs : list Fishable)
  : Run SourceInfo Metadata :=
  sd <- findSdType fuel metadata types fs ;;
  let metadata := set_sdType metadata sd in
  if falsy (resourceType metadata) then
    match instanceOfFor t metadata item types with
    | Some instanceOf =>
        r <- lookup instanceOf ;;
        ret (set_resourceType metadata
               (match r with Some m => sdType m | None => None end))
    | None => ret metadata
    end
  else ret metadata.

(** The last step of [fixMetadata]: "Add url to metadata for non-inline
    Instances". *)
Definition addUrl (metadata : Metadata) : Run SourceInfo Metadata :=
  if falsy (url metadata)
     && negb (strictEq (instanceUsage metadata) (Some "Inline"))
  then
    match pkg this with
    | Some p =>
        ret (set_url metadata
               (Some (Package.canonical p ++ "/" ++ interpolate (resourceType metadata)
                        ++ "/" ++ id metadata)%string))
    | None => throw
    end
  else ret metadata.

(** [fixMetadata(metadata, item, types, fishable, fishables)]; the callers
    pass a match, so the test [if (metadata)] holds. *)
Definition fixMetadata (lookup : string -> Run SourceInfo (option Metadata))
  (fuel : nat) (metadata : Metadata) (item : string) (types : list Type_)
  (fishable : Fishable) (fs : list Fishable) : Run SourceInfo Metadata :=
  metadata <-
    match fishable with
    | OfFSHTank t => fixTankMetadata lookup fuel t metadata item types fs
    | _ => ret metadata
    end ;;
  addUrl metadata.

(** [fishForMetadata(item, ...types)]; the fuel bounds the nesting of the
    calls [fixMetadata] makes back to it, and each parent walk. *)
Fixpoint fishForMetadata (fuel : nat) (item : string) (types : list Type_)
  {struct fuel} : Run SourceInfo (option Metadata) :=
  let item := resolveAlias item in
  match fhir this with
  | None => throw
  | Some f =>
      match FHIRDefinitions.fishForPredefinedResourceMetadata f item types with
      | Some result => ret (Some result)
      | None =>
          match firstMatch fishables item types with
          | Some (fishable, result) =>
              fixed <-
                fixMetadata
                  (match fuel with
                   | O => fun _ => outOfFuel
                   | S fuel' => fun instanceOf => fishForMetadata fuel' instanceOf []
                   end)
                  fuel result item types fishable fishables ;;
              ret (Some fixed)
          | None => ret None
          end
      end
  end.

(** [this.fishForMetadata], as [fixMetadata] calls it with [fuel] left. *)
Definition nestedLookup (fuel : nat) : string -> Run SourceInfo (option Metadata) :=
  match fuel with
  | O => fun _ => outOfFuel
  | S fuel' => fun instanceOf => fishForMetadata fuel' instanceOf []
  end.

(** The [for] loop of [fishForMetadatas]: the repaired matches of every
    fishable, in array order. *)
Fixpoint gatherMetadatas (fuel : nat) (item : string) (types : list Type_)
  (all : list Fishable) (fs : list Fishable) : Run SourceInfo (list Metadata) :=
  match fs with
  | [] => ret []
  | fishable :: rest =>
      results <-
        mapM (fun result =>
                fixMetadata (nestedLookup fuel) fuel result item types fishable all)
             (Fishable_fishForMetadatas fishable item types) ;;
      more <- gatherMetadatas fuel item types all rest ;;
      ret (results ++ more)
  end.

(** [fishForMetadatas(item, ...types)] *)
Definition fishForMetadatas (fuel : nat) (item : string) (types : list Type_)
  : Run SourceInfo (list Metadata) :=
  let item := resolveAlias item in
  match fhir this with
  | None => throw
  | Some f =>
      let metadatas := FHIRDefinitions.fishForPredefinedResourceMetadatas f item types in
      pushed <- gatherMetadatas fuel item types fishables fishables ;;
      ret (uniqWith isEqual (metadatas ++ pushed))
  end.

End MasterFisher.

Arguments Fishable : clear implicits.
Arguments MasterFisher : clear implicits.

(** ** Relations between a catalog record and the record the resolver returns *)

(** [r] is [m] up to the [url] field. *)
Definition sameExceptUrl (m r : Metadata) : Prop :=
  id r = id m /\ name r = name m /\ sdType r = sdType m
  /\ resourceType r = resourceType m /\ parent r = parent m
  /\ instanceUsage r = instanceUsage m.

(** [r] is [m] up to the [sdType], [resourceType] and [url] fields. *)
Definition sameIdentity (m r : Metadata) : Prop :=
  id r = id m /\ name r = name m /\ parent r = parent m
  /\ instanceUsage r = instanceUsage m.

(** The url [addUrl] leaves on a record: the record's own when it has one (or
    is an inline instance), else the synthesized one. *)
Definition urlAfterRepair (canonical : string) (m : Metadata) : option string :=
  if falsy (url m) && negb (strictEq (instanceUsage m) (Some "Inline"))
  then Some (canonical ++ "/" ++ interpolate (resourceType m) ++ "/" ++ id m)%string
  else url m.

(** ** List-backed catalogs, for the concrete scenarios *)

(** Modelled from the spec: the catalogs themselves are not part of the
    sources at hand.  The theorems take them as arbitrary records of lookup
    functions; the list-backed ones below only serve as concrete inputs.  As
    the spec has it, a catalog matches an identifier against name, id and
    url. *)
Definition matchesItem (item : string) (m : Metadata) : bool :=
  String.eqb item (name m) || String.eqb item (id m) || strictEq (Some item) (url m).

Definition lookupIn (A : Type) (table : list (string * A)) (item : string) : option A :=
  option_map snd (find (fun entry => String.eqb item (fst entry)) table).

Definition listPackage (raw : list (string * string)) (metas : list Metadata)
  (canonical : string) : Package.t unit string :=
  Package.make
    (fun item _ => lookupIn raw item)
    (fun item _ => find (matchesItem item) metas)
    (fun item _ => filter (matchesItem item) metas)
    canonical.

Definition listTank (aliases : list (string * string))
  (entities : list (FshEntity.t string)) (metas : list Metadata)
  : FSHTank.t unit string :=
  let named item (e : FshEntity.t string) :=
    String.eqb item (FshEntity.name e) || String.eqb item (FshEntity.id e) in
  FSHTank.make
    (fun item => lookupIn aliases item)
    (fun item _ => find (named item) entities)
    (fun item _ => filter (named item) entities)
    (fun item _ => find (matchesItem item) metas)
    (fun item _ => filter (matchesItem item) metas).

Definition listFHIR (predefinedRaw : list (string * string))
  (predefined : list Metadata) (raw : list (string * string))
  (metas : list Metadata) : FHIRDefinitions.t unit string :=
  FHIRDefinitions.make
    (fun item _ => lookupIn predefinedRaw item)
    (fun item _ => find (matchesItem item) predefined)
    (fun item _ => filter (matchesItem item) predefined)
    (fun item _ => lookupIn raw item)
    (fun item _ => find (matchesItem item) metas)
    (fun item _ => filter (matchesItem item) metas).

Definition emptyFHIR : FHIRDefinitions.t unit string := listFHIR [] [] [] [].

Definition emptyPackage : Package.t unit string := listPackage [] [] "http://example.org".

(** A profile-like record as the tank gives it: no [sdType] yet. *)
Definition tankProfile (nm : string) (u par : option string) : Metadata :=
  mkMetadata nm nm None (Some "StructureDefinition") u par None.

Definition entityOf (nm : string) : FshEntity.t string :=
  FshEntity.make nm nm None (nm ++ ".fsh")%string.

(** ** Concrete scenarios *)

Definition hl7Patient : Metadata :=
  mkMetadata "Patient" "Patient" (Some "Patient") (Some "StructureDefinition")
    (Some "http://hl7.org/fhir/StructureDefinition/Patient") None None.

Definition hl7Observation : Metadata :=
  mkMetadata "Observation" "Observation" (Some "Observation")
    (Some "StructureDefinition")
    (Some "http://hl7.org/fhir/StructureDefinition/Observation") None None.

Definition localPatient : Metadata :=
  mkMetadata "Patient" "Patient" (Some "Patient") (Some "StructureDefinition")
    (Some "http://example.org/StructureDefinition/Patient") None None.

(** A definition that exists in the tank only, under the alias [MyAlias],
    with a same-named definition in the FHIR definitions. *)
Definition tankOnlyResolver : MasterFisher unit string string :=
  mkMasterFisher
    (Some (listTank [("MyAlias", "Patient")] [entityOf "Patient"]
             [tankProfile "Patient" (Some "http://example.org/StructureDefinition/Patient")
                None]))
    (Some (listFHIR [] [] [("Patient", "fhir:Patient")] [hl7Patient]))
    (Some emptyPackage).

Definition clashPackage : Package.t unit string :=
  listPackage [("Patient", "pkg:Patient")] [localPatient] "http://example.org".

Definition predefinedFHIR : FHIRDefinitions.t unit string :=
  listFHIR [("Patient", "fhir:Patient")] [hl7Patient]
    [("Patient", "fhir:Patient")] [hl7Patient].

(** [Patient] is in the fast-path index, in the full FHIR definitions, and,
    with other content, in the package. *)
Definition fastPathResolver : MasterFisher unit string string :=
  mkMasterFisher None (Some predefinedFHIR) (Some clashPackage).

(** [Patient] is in the package and, with other content, in the FHIR
    definitions, but not in their fast-path index. *)
Definition packageFirstResolver : MasterFisher unit string string :=
  mkMasterFisher None
    (Some (listFHIR [] [] [("Patient", "fhir:Patient")] [hl7Patient]))
    (Some clashPackage).

(** An exported instance whose package metadata carries no url. *)
Definition exportedExample : Metadata :=
  mkMetadata "example-1" "Example1" None (Some "Patient") None None (Some "Example").

(** [Example1] is in the package, without url, and, with other content, in
    the FHIR definitions. *)
Definition urllessPackageResolver : MasterFisher unit string string :=
  mkMasterFisher None
    (Some (listFHIR [] [] [("Example1", "fhir:Example1")]
             [mkMetadata "example-1" "Example1" None (Some "Patient")
                (Some "http://hl7.org/fhir/Patient/example-1") None (Some "Example")]))
    (Some (listPackage [("Example1", "pkg:Example1")] [exportedExample]
             "http://example.org")).

(** The same resolver as [tankOnlyResolver] and [fastPathResolver] together,
    constructed without FHIR definitions. *)
Definition noFHIRResolver : MasterFisher unit string string :=
  mkMasterFisher
    (Some (listTank [] [entityOf "Patient"]
             [tankProfile "Patient" (Some "http://example.org/StructureDefinition/Patient")
                None]))
    None
    (Some clashPackage).

(** Profiles [A] and [B] in the tank, each the parent of the other; [B] is
    referred to through the alias [$B]. *)
Definition cycleA : Metadata :=
  tankProfile "A" (Some "http://example.org/StructureDefinition/A") (Some "$B").

Definition cycleB : Metadata :=
  tankProfile "B" (Some "http://example.org/StructureDefinition/B") (Some "A").

Definition cycleTank : FSHTank.t unit string :=
  listTank [("$B", "B")] [entityOf "A"; entityOf "B"] [cycleA; cycleB].

Definition cycleResolver : MasterFisher unit string string :=
  mkMasterFisher (Some cycleTank) (Some emptyFHIR) (Some emptyPackage).

(** Profiles [A] and [B] in the tank, [A] under [B] under [Observation] of
    the FHIR definitions. *)
Definition chainA : Metadata :=
  tankProfile "A" (Some "http://example.org/StructureDefinition/A") (Some "B").

Definition chainB : Metadata :=
  tankProfile "B" (Some "http://example.org/StructureDefinition/B") (Some "Observation").

Definition chainTank : FSHTank.t unit string :=
  listTank [] [entityOf "A"; entityOf "B"] [chainA; chainB].

Definition observationFHIR : FHIRDefinitions.t unit string :=
  listFHIR [] [] [("Observation", "fhir:Observation")] [hl7Observation].

Definition chainResolver : MasterFisher unit string string :=
  mkMasterFisher (Some chainTank) (Some observationFHIR) (Some emptyPackage).

(** The same chain, the tank's records of [A] and [B] carrying no url. *)
Definition urllessA : Metadata := tankProfile "A" None (Some "B").

Definition urllessB : Metadata := tankProfile "B" None (Some "Observation").

Definition urllessChainResolver : MasterFisher unit string string :=
  mkMasterFisher
    (Some (listTank [] [entityOf "A"; entityOf "B"] [urllessA; urllessB]))
    (Some observationFHIR) (Some emptyPackage).

(** The same chain, [A] already in the package, its metadata without sdType. *)
Definition exportedChainResolver : MasterFisher unit string string :=
  mkMasterFisher
    (Some (listTank [] [entityOf "B"] [chainB]))
    (Some observationFHIR)
    (Some (listPackage [] [chainA] "http://example.org")).

(** An instance of [Patient] in the tank, with the given [instanceUsage]. *)
Definition patientInstance (usage : string) : Metadata :=
  mkMetadata "123" "MyPatient" None (Some "Patient") None None (Some usage).

Definition instanceResolver (usage : string) : MasterFisher unit string string :=
  mkMasterFisher
    (Some (listTank [] [FshEntity.make "123" "MyPatient" (Some "Patient") "MyPatient.fsh"]
             [patientInstance usage]))
    (Some emptyFHIR) (Some emptyPackage).

(** [Patient] in the fast-path index and in the full FHIR definitions, and a
    local [Patient] profile both exported to the package and still in the
    tank. *)
Definition duplicateResolver : MasterFisher unit string string :=
  mkMasterFisher
    (Some (listTank [] [entityOf "Patient"]
             [mkMetadata "Patient" "Patient" (Some "Patient") (Some "StructureDefinition")
                (Some "http://example.org/StructureDefinition/Patient") None None]))
    (Some predefinedFHIR)
    (Some clashPackage).

(** [instanceResolver], constructed without a package. *)
Definition noPackageResolver : MasterFisher unit string string :=
  mkMasterFisher
    (Some (listTank [] [FshEntity.make "123" "MyPatient" (Some "Patient") "MyPatient.fsh"]
             [patientInstance "Example"]))
    (Some emptyFHIR) None.

(** ** The constructor *)

Section Constructor.
Context {Type_ RawDefinition SourceInfo : Type}.

(** [this.defaultFHIRVersion =
      fhir?.fishForFHIR('StructureDefinition')?.fhirVersion
        ?? tank?.config.fhirVersion?.[0]],
    as the constructor computes it from its arguments.  The property
    [fhirVersion] of a raw definition and the [config.fhirVersion] array of
    a tank belong to types declared outside this file: [fhirVersionOf] and
    [configFhirVersion] read them. *)
Definition defaultFHIRVersion
  (fhirVersionOf : RawDefinition -> option string)
  (configFhirVersion : FSHTank.t Type_ SourceInfo -> option (list string))
  (this : MasterFisher Type_ RawDefinition SourceInfo) : option string :=
  let fromFHIR :=
    match fhir this with
    | Some f =>
        match FHIRDefinitions.fishForFHIR f "StructureDefinition" [] with
        | Some definition => fhirVersionOf definition
        | None => None
        end
    | None => None
    end in
  match fromFHIR with
  | Some version => Some version
  | None =>
      match tank this with
      | Some t =>
          match configFhirVersion t with
          | Some (version :: _) => Some version
          | _ => None
          end
      | None => None
      end
  end.

End Constructor.

(** ** Parent chains *)

Section Chains.
Context {Type_ RawDefinition SourceInfo : Type}.
Variable this : MasterFisher Type_ RawDefinition SourceInfo.

(** [rest] lists the records the walk of [findSdType] goes through after
    [m]: each record before the last has no sdType, and the first match for
    its alias-resolved parent is the next one. *)
Fixpoint linked (types : list Type_)
  (fs : list (Fishable Type_ RawDefinition SourceInfo))
  (m : Metadata) (rest : list Metadata) : Prop :=
  match rest with
  | [] => True
  | next :: rest' =>
      sdType m = None
      /\ (exists p fishable,
             parent m = Some p
             /\ firstMatch fs (resolveAlias this p) types = Some (fishable, next))
      /\ linked types fs next rest'
  end.

End Chains.

(** ** More concrete scenarios *)

(** Profiles [P1] under [P2] under [P3] under [P4] in the tank, [P4] under
    [Observation] of the FHIR definitions. *)
Definition deepProfile (nm par : string) : Metadata :=
  tankProfile nm (Some ("http://example.org/StructureDefinition/" ++ nm)%string)
    (Some par).

Definition deepTank : FSHTank.t unit string :=
  listTank []
    [entityOf "P1"; entityOf "P2"; entityOf "P3"; entityOf "P4"]
    [deepProfile "P1" "P2"; deepProfile "P2" "P3"; deepProfile "P3" "P4";
     deepProfile "P4" "Observation"].

Definition deepResolver : MasterFisher unit string string :=
  mkMasterFisher (Some deepTank) (Some observationFHIR) (Some emptyPackage).

(** Profiles [Q1] under [Q2] under [Q3] under [Q1] in the tank. *)
Definition ringTank : FSHTank.t unit string :=
  listTank []
    [entityOf "Q1"; entityOf "Q2"; entityOf "Q3"]
    [deepProfile "Q1" "Q2"; deepProfile "Q2" "Q3"; deepProfile "Q3" "Q1"].

Definition ringResolver : MasterFisher unit string string :=
  mkMasterFisher (Some ringTank) (Some observationFHIR) (Some emptyPackage).

(** A profile in the tank whose parent no catalog knows. *)
Definition orphanResolver : MasterFisher unit string string :=
  mkMasterFisher
    (Some (listTank [] [entityOf "Orphan"] [deepProfile "Orphan" "Nowhere"]))
    (Some observationFHIR) (Some emptyPackage).

(** An instance as the tank gives it: no resourceType, no url. *)
Definition tankInstance (idn nm : string) : Metadata :=
  mkMetadata idn nm None None None None (Some "Example").

(** An instance of the tank's profile [A] of [chainResolver]. *)
Definition instanceOfProfileResolver : MasterFisher unit string string :=
  mkMasterFisher
    (Some (listTank []
             [entityOf "A"; entityOf "B";
              FshEntity.make "a-1" "AnA" (Some "A") "AnA.fsh"]
             [chainA; chainB; tankInstance "a-1" "AnA"]))
    (Some observationFHIR) (Some emptyPackage).

(** An instance of a type that no catalog knows. *)
Definition instanceOfUnknownResolver : MasterFisher unit string string :=
  mkMasterFisher
    (Some (listTank []
             [FshEntity.make "x-1" "AnX" (Some "Unknown") "AnX.fsh"]
             [tankInstance "x-1" "AnX"]))
    (Some observationFHIR) (Some emptyPackage).

(** An instance whose [InstanceOf] is its own name. *)
Definition selfInstanceResolver : MasterFisher unit string string :=
  mkMasterFisher
    (Some (listTank []
             [FshEntity.make "Foo" "Foo" (Some "Foo") "Foo.fsh"]
             [tankInstance "Foo" "Foo"]))
    (Some observationFHIR) (Some emptyPackage).

(** A value set that is exported to the package and still in the tank: both
    give the same metadata, an object without the key [sdType]. *)
Definition exportedValueSet : Metadata :=
  mkMetadata "my-vs" "MyValueSet" None (Some "ValueSet")
    (Some "http://example.org/ValueSet/my-vs") None None.

Definition valueSetPackage : Package.t unit string :=
  listPackage [("MyValueSet", "pkg:MyValueSet")] [exportedValueSet] "http://example.org".

Definition valueSetTank : FSHTank.t unit string :=
  listTank [] [FshEntity.make "my-vs" "MyValueSet" None "MyValueSet.fsh"]
    [exportedValueSet].

Definition valueSetResolver : MasterFisher unit string string :=
  mkMasterFisher (Some valueSetTank) (Some emptyFHIR) (Some valueSetPackage).

(** ** Properties of the effects *)

Section EffectFacts.
Context {SourceInfo : Type}.

Lemma bind_ret_l (A B : Type) (a : A) (k : A -> Run SourceInfo B) :
  bind (ret a) k = k a.
Proof.
  unfold bind, ret. destruct (k a) as [r d]. reflexivity.
Qed.

Lemma bind_returned (A B : Type) (m : Run SourceInfo A) (k : A -> Run SourceInfo B)
  (b : B) (d : list (Diagnostic SourceInfo)) :
  bind m k = (Returned b, d) ->
  exists a d1 d2, m = (Returned a, d1) /\ k a = (Returned b, d2) /\ d = d1 ++ d2.
Proof.
  unfold bind. destruct m as [[a| |] d1]; try discriminate.
  destruct (k a) as [r d2] eqn:E. intros H. inversion H. subst.
  exists a, d1, d2. auto.
Qed.

Lemma bind_of_returned (A B : Type) (m : Run SourceInfo A) (k : A -> Run SourceInfo B)
  (a : A) (d1 : list (Diagnostic SourceInfo)) :
  m = (Returned a, d1) -> bind m k = (fst (k a), d1 ++ snd (k a)).
Proof.
  intros ->. unfold bind. destruct (k a). reflexivity.
Qed.

Lemma mapM_returned (A B : Type) (f : A -> Run SourceInfo B) (l : list A)
  (rs : list B) (d : list (Diagnostic SourceInfo)) :
  mapM f l = (Returned rs, d) ->
  Forall2 (fun x y => exists dx, f x = (Returned y, dx)) l rs.
Proof.
  revert rs d. induction l as [|x l IH]; simpl; intros rs d H.
  - inversion H. constructor.
  - apply bind_returned in H. destruct H as (y & d1 & d2 & Hx & H & _).
    apply bind_returned in H. destruct H as (ys & d3 & d4 & Hl & H & _).
    inversion H. subst. constructor; eauto.
Qed.

Lemma mapM_all_return (A B : Type) (f : A -> Run SourceInfo B) (l : list A) :
  (forall x, In x l -> exists y dx, f x = (Returned y, dx)) ->
  exists rs d, mapM f l = (Returned rs, d)
    /\ (forall x y dx, In x l -> f x = (Returned y, dx) ->
          In y rs /\ incl dx d).
Proof.
  induction l as [|x l IH]; simpl; intros H.
  - exists [], []. split; [reflexivity|]. intros ? ? ? [].
  - destruct (H x (or_introl eq_refl)) as (y & dx & Hx).
    destruct IH as (rs & d & Hl & Hin); [intros; apply H; auto|].
    exists (y :: rs), (dx ++ d ++ []). split.
    + rewrite Hx, Hl. reflexivity.
    + intros x' y' dx' [<-|Hx'] Hf.
      * rewrite Hx in Hf. inversion Hf. subst. split; [left; reflexivity|].
        apply incl_appl, incl_refl.
      * destruct (Hin _ _ _ Hx' Hf) as [Hy Hd]. split; [right; exact Hy|].
        apply incl_appr, incl_appl, Hd.
Qed.

End EffectFacts.

(** ** Properties of [isEqual] and [uniqWith] *)

Lemma isEqual_true (a b : Metadata) : isEqual a b = true <-> a = b.
Proof.
  unfold isEqual. destruct (Metadata_eq_dec a b); split; congruence.
Qed.

Lemma isEqual_seen (value : Metadata) (result : list Metadata) :
  existsb (fun seen => isEqual value seen) result = true <-> In value result.
Proof.
  rewrite existsb_exists. split.
  - intros (x & Hin & Heq). apply isEqual_true in Heq. subst. exact Hin.
  - intros Hin. exists value. split; [exact Hin|]. apply isEqual_true. reflexivity.
Qed.

Lemma uniqWith_uniqInto (array : list Metadata) :
  uniqWith isEqual array = uniqInto [] array.
Proof. reflexivity. Qed.

Lemma uniqInto_app (kept l1 l2 : list Metadata) :
  uniqInto kept (l1 ++ l2) = uniqInto (uniqInto kept l1) l2.
Proof. unfold uniqInto. apply fold_left_app. Qed.

Lemma uniqInto_extends (array kept : list Metadata) :
  exists more, uniqInto kept array = kept ++ more.
Proof.
  revert kept. induction array as [|x array IH]; intros kept.
  - exists []. simpl. rewrite app_nil_r. reflexivity.
  - unfold uniqInto. simpl. fold (uniqInto kept array).
    destruct (existsb (fun seen => isEqual x seen) kept).
    + apply IH.
    + destruct (IH (kept ++ [x])) as [more Hmore].
      exists (x :: more). unfold uniqInto in Hmore. rewrite Hmore.
      rewrite <- app_assoc. reflexivity.
Qed.

Lemma uniqInto_In (array kept : list Metadata) (x : Metadata) :
  In x (uniqInto kept array) <-> In x kept \/ In x array.
Proof.
  revert kept. induction array as [|y array IH]; intros kept.
  - simpl. tauto.
  - unfold uniqInto. simpl.
    destruct (existsb (fun seen => isEqual y seen) kept) eqn:E.
    + fold (uniqInto kept array). rewrite IH. apply isEqual_seen in E.
      split; [tauto|]. intros [H|[<-|H]]; auto.
    + fold (uniqInto (kept ++ [y]) array). rewrite IH, in_app_iff. simpl. tauto.
Qed.

Lemma uniqInto_NoDup (array kept : list Metadata) :
  NoDup kept -> NoDup (uniqInto kept array).
Proof.
  revert kept. induction array as [|y array IH]; intros kept Hk.
  - exact Hk.
  - unfold uniqInto. simpl.
    destruct (existsb (fun seen => isEqual y seen) kept) eqn:E.
    + apply IH, Hk.
    + apply IH. apply NoDup_app; [exact Hk|repeat constructor; intros []|].
      intros x Hx [<-|[]]. apply isEqual_seen in Hx. congruence.
Qed.

Lemma uniqWith_first_occurrence (l1 l2 : list Metadata) (x : Metadata) :
  ~ In x l1 ->
  exists more, uniqWith isEqual (l1 ++ x :: l2) = uniqWith isEqual l1 ++ x :: more.
Proof.
  intros Hx. rewrite !uniqWith_uniqInto, uniqInto_app.
  unfold uniqInto at 1. simpl. fold (uniqInto [] l1).
  destruct (existsb (fun seen => isEqual x seen) (uniqInto [] l1)) eqn:E.
  - apply isEqual_seen, uniqInto_In in E. simpl in E. tauto.
  - fold (uniqInto (uniqInto [] l1 ++ [x]) l2).
    destruct (uniqInto_extends l2 (uniqInto [] l1 ++ [x])) as [more ->].
    exists more. rewrite <- app_assoc. reflexivity.
Qed.

(** Splits a hypothesis [bind m k = (Returned b, d)] into the two runs. *)
Ltac split_bind H :=
  let a := fresh "a" in
  let d1 := fresh "d" in
  let d2 := fresh "d" in
  let H1 := fresh "Hrun" in
  let Hd := fresh "Hlog" in
  apply bind_returned in H; destruct H as (a & d1 & d2 & H1 & H & Hd).

(** ** Properties of the resolver's building blocks *)

(** An assignment to [url] leaves the other properties as they read. *)
Lemma set_url_sameExceptUrl (m : Metadata) (v : option string) :
  sameExceptUrl m (set_url m v).
Proof.
  destruct v; repeat split.
Qed.

(** Assigning to [url] what it reads as changes nothing. *)
Lemma set_url_read (m : Metadata) : set_url m (url m) = m.
Proof.
  destruct m as [i n sd rt [[u|]|] par usage]; reflexivity.
Qed.

Section ResolverFacts.
Context {Type_ RawDefinition SourceInfo : Type}.
Variable this : MasterFisher Type_ RawDefinition SourceInfo.

Lemma fishForMetadata_unfold (fuel : nat) (item : string) (types : list Type_) :
  fishForMetadata this fuel item types =
  match fhir this with
  | None => throw
  | Some f =>
      match FHIRDefinitions.fishForPredefinedResourceMetadata f
              (resolveAlias this item) types with
      | Some result => ret (Some result)
      | None =>
          match firstMatch (fishables this) (resolveAlias this item) types with
          | Some (fishable, result) =>
              bind (fixMetadata this (nestedLookup this fuel) fuel result
                      (resolveAlias this item) types fishable (fishables this))
                   (fun fixed => ret (Some fixed))
          | None => ret None
          end
      end
  end.
Proof. destruct fuel; reflexivity. Qed.

(** The order of [fishables]: package, then tank, then FHIR definitions. *)
Lemma firstMatch_fishables (item : string) (types : list Type_) :
  firstMatch (fishables this) item types =
  match pkg this with
  | Some p =>
      match Package.fishForMetadata p item types with
      | Some m => Some (OfPackage p, m)
      | None => firstMatch (present (@OfFSHTank _ RawDefinition _) (tank this)
                              ++ present (@OfFHIRDefinitions _ _ SourceInfo) (fhir this))
                  item types
      end
  | None => firstMatch (present (@OfFSHTank _ RawDefinition _) (tank this)
                          ++ present (@OfFHIRDefinitions _ _ SourceInfo) (fhir this))
              item types
  end.
Proof.
  unfold fishables. destruct (pkg this) as [p|]; simpl; reflexivity.
Qed.

Lemma firstMatch_after_package (item : string) (types : list Type_) :
  firstMatch (present (@OfFSHTank _ RawDefinition _) (tank this)
                ++ present (@OfFHIRDefinitions _ _ SourceInfo) (fhir this)) item types =
  match tank this with
  | Some t =>
      match FSHTank.fishForMetadata t item types with
      | Some m => Some (OfFSHTank t, m)
      | None =>
          match fhir this with
          | Some f =>
              match FHIRDefinitions.fishForMetadata f item types with
              | Some m => Some (OfFHIRDefinitions f, m)
              | None => None
              end
          | None => None
          end
      end
  | None =>
      match fhir this with
      | Some f =>
          match FHIRDefinitions.fishForMetadata f item types with
          | Some m => Some (OfFHIRDefinitions f, m)
          | None => None
          end
      | None => None
      end
  end.
Proof.
  destruct (tank this) as [t|], (fhir this) as [f|]; simpl;
    repeat match goal with |- context [match ?x with _ => _ end] => destruct x end;
    reflexivity.
Qed.

(** [addUrl] in one equation: with a package it returns the record with
    [urlAfterRepair]; without one it throws exactly when it has to read
    [this.pkg.config]. *)
Lemma addUrl_with_package (p : Package.t Type_ RawDefinition) (m : Metadata) :
  pkg this = Some p ->
  addUrl this m = ret (SourceInfo := SourceInfo)
                    (set_url m (urlAfterRepair (Package.canonical p) m)).
Proof.
  intros Hp. unfold addUrl, urlAfterRepair. rewrite Hp.
  destruct (falsy (url m) && negb (strictEq (instanceUsage m) (Some "Inline")));
    [reflexivity|]. rewrite set_url_read. reflexivity.
Qed.

Lemma addUrl_returned (m r : Metadata) (d : list (Diagnostic SourceInfo)) :
  addUrl this m = (Returned r, d) ->
  d = [] /\ sameExceptUrl m r
  /\ (falsy (url m) && negb (strictEq (instanceUsage m) (Some "Inline")) = true ->
      exists p, pkg this = Some p
        /\ url r = Some (Package.canonical p ++ "/" ++ interpolate (resourceType r)
                           ++ "/" ++ id r)%string)
  /\ (falsy (url m) && negb (strictEq (instanceUsage m) (Some "Inline")) = false ->
      r = m).
Proof.
  unfold addUrl.
  destruct (falsy (url m) && negb (strictEq (instanceUsage m) (Some "Inline"))).
  - destruct (pkg this) as [p|]; [|discriminate].
    unfold ret. intros H. inversion H. subst. clear H.
    repeat split; try discriminate. exists p. split; reflexivity.
  - unfold ret. intros H. inversion H. subst.
    repeat split; try discriminate.
Qed.

Lemma fixMetadata_not_tank (lookup : string -> Run SourceInfo (option Metadata))
  (fuel : nat) (m : Metadata) (item : string) (types : list Type_)
  (fishable : Fishable Type_ RawDefinition SourceInfo)
  (fs : list (Fishable Type_ RawDefinition SourceInfo)) :
  (forall t, fishable <> OfFSHTank t) ->
  fixMetadata this lookup fuel m item types fishable fs = addUrl this m.
Proof.
  intros Hnt. unfold fixMetadata.
  destruct fishable as [p|t|f]; try apply bind_ret_l.
  exfalso. apply (Hnt t). reflexivity.
Qed.

End ResolverFacts.

Section RepairFacts.
Context {Type_ RawDefinition SourceInfo : Type}.
Variable this : MasterFisher Type_ RawDefinition SourceInfo.

(** The tank branch sets [sdType] to what the parent walk returned, may set
    [resourceType], and touches nothing else. *)
Lemma fixTankMetadata_returned
  (lookup : string -> Run SourceInfo (option Metadata)) (fuel : nat)
  (t : FSHTank.t Type_ SourceInfo) (m r : Metadata) (item : string)
  (types : list Type_) (fs : list (Fishable Type_ RawDefinition SourceInfo))
  (d : list (Diagnostic SourceInfo)) :
  fixTankMetadata this lookup fuel t m item types fs = (Returned r, d) ->
  (exists d1, findSdType this fuel m types fs = (Returned (sdType r), d1))
  /\ sameIdentity m r /\ url r = url m.
Proof.
  unfold fixTankMetadata. intros H. split_bind H.
  assert (Hcases : r = set_sdType m a
                   \/ exists v, r = set_resourceType (set_sdType m a) v).
  { destruct (falsy (resourceType (set_sdType m a))).
    - destruct (instanceOfFor t (set_sdType m a) item types).
      + split_bind H. inversion H. right. eexists. reflexivity.
      + inversion H. left. reflexivity.
    - inversion H. left. reflexivity. }
  destruct Hcases as [->|[v ->]]; (split; [exists d0; exact Hrun|]);
    repeat split.
Qed.

(** Every record [fixMetadata] returns keeps id, name, parent and
    instanceUsage of the catalog record, and its url obeys [addUrl]. *)
Lemma fixMetadata_returned
  (lookup : string -> Run SourceInfo (option Metadata)) (fuel : nat)
  (m r : Metadata) (item : string) (types : list Type_)
  (fishable : Fishable Type_ RawDefinition SourceInfo)
  (fs : list (Fishable Type_ RawDefinition SourceInfo))
  (d : list (Diagnostic SourceInfo)) :
  fixMetadata this lookup fuel m item types fishable fs = (Returned r, d) ->
  exists m', addUrl this m' = (Returned r, [])
    /\ sameIdentity m m' /\ url m' = url m
    /\ match fishable with
       | OfFSHTank t =>
           exists d1, findSdType this fuel m types fs = (Returned (sdType m'), d1)
       | _ => m' = m /\ d = []
       end.
Proof.
  unfold fixMetadata. intros H. split_bind H. exists a.
  destruct (addUrl_returned this _ H) as (-> & _).
  split; [exact H|].
  destruct fishable as [p|t|f].
  - inversion Hrun. subst. repeat split.
  - destruct (fixTankMetadata_returned _ _ _ _ _ _ _ Hrun) as (Hsd & Hid & Hu).
    repeat split; try apply Hid; assumption.
  - inversion Hrun. subst. repeat split.
Qed.

(** What came out of the [for] loop of [fishForMetadatas]: one part per
    fishable, in the order of the array, each part the repaired matches of
    that fishable in the order the fishable gave them. *)
Lemma gatherMetadatas_returned (fuel : nat) (item : string) (types : list Type_)
  (all fs : list (Fishable Type_ RawDefinition SourceInfo))
  (pushed : list Metadata) (d : list (Diagnostic SourceInfo)) :
  gatherMetadatas this fuel item types all fs = (Returned pushed, d) ->
  exists parts,
    pushed = concat parts
    /\ Forall2
         (fun fishable part =>
            Forall2
              (fun m r => exists dx,
                   fixMetadata this (nestedLookup this fuel) fuel m item types
                     fishable all = (Returned r, dx))
              (Fishable_fishForMetadatas fishable item types) part)
         fs parts.
Proof.
  revert pushed d. induction fs as [|fishable fs IH]; simpl; intros pushed d H.
  - inversion H. exists []. split; [reflexivity|constructor].
  - split_bind H. split_bind H. inversion H. subst.
    destruct (IH _ _ Hrun0) as (parts & -> & Hparts).
    exists (a :: parts). split; [reflexivity|].
    constructor; [|exact Hparts]. eapply mapM_returned. exact Hrun.
Qed.

Lemma Forall2_In_r (A B : Type) (R : A -> B -> Prop) (l : list A) (l' : list B)
  (y : B) :
  Forall2 R l l' -> In y l' -> exists x, In x l /\ R x y.
Proof.
  induction 1 as [|x y' l l' Hxy _ IH]; intros Hin; [destruct Hin|].
  destruct Hin as [<-|Hin].
  - exists x. split; [left; reflexivity|exact Hxy].
  - destruct (IH Hin) as (x' & Hx' & HR). exists x'. split; [right|]; assumption.
Qed.

(** Membership form of [gatherMetadatas_returned]. *)
Lemma gatherMetadatas_origin (fuel : nat) (item : string) (types : list Type_)
  (all fs : list (Fishable Type_ RawDefinition SourceInfo))
  (pushed : list Metadata) (d : list (Diagnostic SourceInfo)) (r : Metadata) :
  gatherMetadatas this fuel item types all fs = (Returned pushed, d) ->
  In r pushed ->
  exists fishable m dx,
    In fishable fs
    /\ In m (Fishable_fishForMetadatas fishable item types)
    /\ fixMetadata this (nestedLookup this fuel) fuel m item types fishable all
       = (Returned r, dx).
Proof.
  intros H Hin. apply gatherMetadatas_returned in H.
  destruct H as (parts & -> & Hparts).
  apply in_concat in Hin. destruct Hin as (part & Hpart & Hr).
  destruct (Forall2_In_r _ Hparts Hpart) as (fishable & Hfish & Hrel).
  destruct (Forall2_In_r _ Hrel Hr) as (m & Hm & dx & Hfix).
  exists fishable, m, dx. auto.
Qed.

End RepairFacts.

Section OriginFacts.
Context {Type_ RawDefinition SourceInfo : Type}.
Variable this : MasterFisher Type_ RawDefinition SourceInfo.

(** A record [fishForMetadata] returns is the fast-path match, or the first
    match among the fishables after [fixMetadata]. *)
Lemma fishForMetadata_origin (fuel : nat) (item : string) (types : list Type_)
  (r : Metadata) (d : list (Diagnostic SourceInfo)) :
  fishForMetadata this fuel item types = (Returned (Some r), d) ->
  exists f, fhir this = Some f
    /\ ((FHIRDefinitions.fishForPredefinedResourceMetadata f
           (resolveAlias this item) types = Some r /\ d = [])
        \/ (FHIRDefinitions.fishForPredefinedResourceMetadata f
              (resolveAlias this item) types = None
            /\ exists fishable m,
                firstMatch (fishables this) (resolveAlias this item) types
                  = Some (fishable, m)
                /\ fixMetadata this (nestedLookup this fuel) fuel m
                     (resolveAlias this item) types fishable (fishables this)
                   = (Returned r, d))).
Proof.
  rewrite fishForMetadata_unfold. intros H.
  destruct (fhir this) as [f|]; [|discriminate]. exists f. split; [reflexivity|].
  destruct (FHIRDefinitions.fishForPredefinedResourceMetadata f
              (resolveAlias this item) types) as [pre|].
  - inversion H. left. auto.
  - right. split; [reflexivity|].
    destruct (firstMatch (fishables this) (resolveAlias this item) types)
      as [[fishable m]|]; [|discriminate].
    exists fishable, m. split; [reflexivity|].
    split_bind H. inversion H. subst. rewrite app_nil_r. exact Hrun.
Qed.

(** A record [fishForMetadatas] returns is a fast-path match, or a match of
    one of the fishables after [fixMetadata]. *)
Lemma fishForMetadatas_origin (fuel : nat) (item : string) (types : list Type_)
  (l : list Metadata) (d : list (Diagnostic SourceInfo)) (r : Metadata) :
  fishForMetadatas this fuel item types = (Returned l, d) ->
  In r l ->
  exists f, fhir this = Some f
    /\ (In r (FHIRDefinitions.fishForPredefinedResourceMetadatas f
                (resolveAlias this item) types)
        \/ exists fishable m dx,
            In fishable (fishables this)
            /\ In m (Fishable_fishForMetadatas fishable (resolveAlias this item) types)
            /\ fixMetadata this (nestedLookup this fuel) fuel m
                 (resolveAlias this item) types fishable (fishables this)
               = (Returned r, dx)).
Proof.
  unfold fishForMetadatas. intros H Hin.
  destruct (fhir this) as [f|]; [|discriminate]. exists f. split; [reflexivity|].
  split_bind H. inversion H. subst.
  rewrite uniqWith_uniqInto in Hin. apply uniqInto_In in Hin.
  destruct Hin as [[]|Hin]. apply in_app_or in Hin. destruct Hin as [Hin|Hin].
  - left. exact Hin.
  - right. eapply gatherMetadatas_origin; eassumption.
Qed.

Lemma firstMatch_Some (fs : list (Fishable Type_ RawDefinition SourceInfo))
  (item : string) (types : list Type_)
  (fishable : Fishable Type_ RawDefinition SourceInfo) (m : Metadata) :
  firstMatch fs item types = Some (fishable, m) ->
  In fishable fs /\ Fishable_fishForMetadata fishable item types = Some m.
Proof.
  induction fs as [|x fs IH]; simpl; intros H; [discriminate|].
  destruct (Fishable_fishForMetadata x item types) as [mx|] eqn:E.
  - inversion H. subst. auto.
  - destruct (IH H). auto.
Qed.


End OriginFacts.

(** ** Properties of the parent walk *)

Lemma strictEq_true (a b : option string) : strictEq a b = true <-> a = b.
Proof.
  destruct a as [x|], b as [y|]; simpl; try (split; congruence).
  rewrite String.eqb_eq. split; congruence.
Qed.

Lemma strictEq_false (a b : option string) : strictEq a b = false <-> a <> b.
Proof.
  rewrite <- strictEq_true. destruct (strictEq a b); split; congruence.
Qed.

Lemma append_empty_r (s : string) : (s ++ "")%string = s.
Proof.
  induction s as [|c s IH]; simpl; [reflexivity|]. rewrite IH. reflexivity.
Qed.

Section WalkFacts.
Context {Type_ RawDefinition SourceInfo : Type}.
Variable this : MasterFisher Type_ RawDefinition SourceInfo.

(** Whether the walk's cycle test holds of [history] and the new match. *)
Lemma revisits_iff (history : list Metadata) (parentResult : Metadata) :
  existsb (fun md => strictEq (url md) (url parentResult)) history = true
  <-> exists md, In md history /\ url md = url parentResult.
Proof.
  rewrite existsb_exists. split; intros (md & Hin & H); exists md;
    (split; [exact Hin|]); apply strictEq_true; exact H.
Qed.

(** One iteration of the [while] loop. *)
Lemma findSdType_loop_step (fuel : nat) (types : list Type_)
  (fs : list (Fishable Type_ RawDefinition SourceInfo)) (history : list Metadata)
  (parent0 : string) :
  findSdType_loop this (S fuel) types fs history None (Some parent0) =
  match firstMatch fs (resolveAlias this parent0) types with
  | Some (fishable, parentResult) =>
      if existsb (fun md => strictEq (url md) (url parentResult)) history
      then (Returned None,
            [mkDiagnostic (circularMessage this history parentResult)
               (circularLocation fishable (resolveAlias this parent0))])
      else findSdType_loop this fuel types fs (history ++ [parentResult])
             (sdType parentResult) (parent parentResult)
  | None => (Returned None, [])
  end.
Proof.
  simpl. destruct (firstMatch fs (resolveAlias this parent0) types) as [[fb pr]|].
  - destruct (existsb (fun md => strictEq (url md) (url pr)) history); reflexivity.
  - destruct fuel; reflexivity.
Qed.

(** The loop ends at once on a known [sdType] or a missing [parent]. *)
Lemma findSdType_loop_done (fuel : nat) (types : list Type_)
  (fs : list (Fishable Type_ RawDefinition SourceInfo)) (history : list Metadata)
  (sd par : option string) :
  sd <> None \/ par = None ->
  findSdType_loop this fuel types fs history sd par = (Returned sd, []).
Proof.
  intros H. destruct fuel, sd, par; try reflexivity; destruct H; congruence.
Qed.

(** The message names the whole chain, oldest first, then the hint if any. *)
Lemma circularMessage_names (history : list Metadata) (parentResult : Metadata) :
  exists hint,
    circularMessage this history parentResult
    = (("Circular dependency detected on parent relationships: "
          ++ String.concat " < " (map name (history ++ [parentResult])%list))
         ++ hint)%string.
Proof.
  unfold circularMessage.
  destruct (match fhir this with
            | Some f =>
                match FHIRDefinitions.fishForMetadata f (name parentResult) [] with
                | Some m => Some m
                | None => FHIRDefinitions.fishForMetadata f (id parentResult) []
                end
            | None => None
            end) as [m|].
  - eexists. reflexivity.
  - exists "". rewrite append_empty_r. reflexivity.
Qed.

Lemma instanceOfFor_set_sdType (t : FSHTank.t Type_ SourceInfo) (m : Metadata)
  (v : option string) (item : string) (types : list Type_) :
  instanceOfFor t (set_sdType m v) item types = instanceOfFor t m item types.
Proof. reflexivity. Qed.

(** The tank branch of [fixMetadata] when the resourceType backfill has
    nothing to look up. *)
Lemma fixTankMetadata_no_backfill
  (lookup : string -> Run SourceInfo (option Metadata)) (fuel : nat)
  (t : FSHTank.t Type_ SourceInfo) (m : Metadata) (item : string)
  (types : list Type_) (fs : list (Fishable Type_ RawDefinition SourceInfo))
  (sd : option string) (d : list (Diagnostic SourceInfo)) :
  findSdType this fuel m types fs = (Returned sd, d) ->
  (falsy (resourceType m) = true -> instanceOfFor t m item types = None) ->
  fixTankMetadata this lookup fuel t m item types fs = (Returned (set_sdType m sd), d).
Proof.
  intros Hwalk Hno. unfold fixTankMetadata.
  rewrite (bind_of_returned _ Hwalk).
  change (resourceType (set_sdType m sd)) with (resourceType m).
  rewrite instanceOfFor_set_sdType.
  destruct (falsy (resourceType m)); [rewrite (Hno eq_refl)|];
    simpl; rewrite app_nil_r; reflexivity.
Qed.

(** [fixMetadata] on a tank match, with a package to take the canonical
    from and no backfill: the walk's [sdType], then the url. *)
Lemma fixMetadata_tank_no_backfill
  (lookup : string -> Run SourceInfo (option Metadata)) (fuel : nat)
  (t : FSHTank.t Type_ SourceInfo) (p : Package.t Type_ RawDefinition)
  (m : Metadata) (item : string)
  (types : list Type_) (fs : list (Fishable Type_ RawDefinition SourceInfo))
  (sd : option string) (d : list (Diagnostic SourceInfo)) :
  pkg this = Some p ->
  findSdType this fuel m types fs = (Returned sd, d) ->
  (falsy (resourceType m) = true -> instanceOfFor t m item types = None) ->
  fixMetadata this lookup fuel m item types (OfFSHTank t) fs
  = (Returned (set_url (set_sdType m sd)
                 (urlAfterRepair (Package.canonical p) (set_sdType m sd))), d).
Proof.
  intros Hp Hwalk Hno. unfold fixMetadata.
  rewrite (bind_of_returned _
             (@fixTankMetadata_no_backfill lookup fuel t m item types fs sd d Hwalk Hno)).
  rewrite (addUrl_with_package this _ Hp). simpl. rewrite app_nil_r. reflexivity.
Qed.

End WalkFacts.

Section GatherFacts.
Context {Type_ RawDefinition SourceInfo : Type}.
Variable this : MasterFisher Type_ RawDefinition SourceInfo.

(** The [for] loop of [fishForMetadatas] returns when every repair in it
    does, with every repaired record and every diagnostic of the repairs. *)
Lemma gatherMetadatas_all_return (fuel : nat) (item : string) (types : list Type_)
  (all fs : list (Fishable Type_ RawDefinition SourceInfo)) :
  (forall fishable m,
      In fishable fs -> In m (Fishable_fishForMetadatas fishable item types) ->
      exists r dx,
        fixMetadata this (nestedLookup this fuel) fuel m item types fishable all
        = (Returned r, dx)) ->
  exists pushed d,
    gatherMetadatas this fuel item types all fs = (Returned pushed, d)
    /\ forall fishable m r dx,
        In fishable fs -> In m (Fishable_fishForMetadatas fishable item types) ->
        fixMetadata this (nestedLookup this fuel) fuel m item types fishable all
        = (Returned r, dx) ->
        In r pushed /\ incl dx d.
Proof.
  induction fs as [|fishable fs IH]; intros Hall.
  - exists [], []. split; [reflexivity|]. intros ? ? ? ? [].
  - destruct (@mapM_all_return SourceInfo _ _
                (fun result => fixMetadata this (nestedLookup this fuel) fuel result
                                 item types fishable all)
                (Fishable_fishForMetadatas fishable item types))
      as (rs & d1 & Hrs & Hin1).
    { intros m Hm. apply Hall; [left; reflexivity|exact Hm]. }
    destruct IH as (pushed & d2 & Hrest & Hin2).
    { intros fb m Hfb Hm. apply Hall; [right; exact Hfb|exact Hm]. }
    exists (rs ++ pushed), (d1 ++ d2 ++ []). split.
    + simpl. rewrite Hrs, Hrest. reflexivity.
    + intros fb m r dx [<-|Hfb] Hm Hfix.
      * destruct (Hin1 _ _ _ Hm Hfix) as [Hr Hd].
        split; [apply in_or_app; left; exact Hr|apply incl_appl, Hd].
      * destruct (Hin2 _ _ _ _ Hfb Hm Hfix) as [Hr Hd].
        split; [apply in_or_app; right; exact Hr|].
        apply incl_appr, incl_appl, Hd.
Qed.

(** [fishForMetadatas] returns when every repair in it does. *)
Lemma fishForMetadatas_all_return (fuel : nat) (item : string) (types : list Type_)
  (f : FHIRDefinitions.t Type_ RawDefinition) :
  fhir this = Some f ->
  (forall fishable m,
      In fishable (fishables this) ->
      In m (Fishable_fishForMetadatas fishable (resolveAlias this item) types) ->
      exists r dx,
        fixMetadata this (nestedLookup this fuel) fuel m (resolveAlias this item)
          types fishable (fishables this) = (Returned r, dx)) ->
  exists l d,
    fishForMetadatas this fuel item types = (Returned l, d)
    /\ forall fishable m r dx,
        In fishable (fishables this) ->
        In m (Fishable_fishForMetadatas fishable (resolveAlias this item) types) ->
        fixMetadata this (nestedLookup this fuel) fuel m (resolveAlias this item)
          types fishable (fishables this) = (Returned r, dx) ->
        In r l /\ incl dx d.
Proof.
  intros Hf Hall.
  destruct (gatherMetadatas_all_return _ _ _ _ _ Hall) as (pushed & d & Hg & Hin).
  exists (uniqWith isEqual
            (FHIRDefinitions.fishForPredefinedResourceMetadatas f
               (resolveAlias this item) types ++ pushed)), (d ++ []).
  split.
  - unfold fishForMetadatas. rewrite Hf, Hg. reflexivity.
  - intros fb m r dx Hfb Hm Hfix. destruct (Hin _ _ _ _ Hfb Hm Hfix) as [Hr Hd].
    split.
    + rewrite uniqWith_uniqInto. apply uniqInto_In. right.
      apply in_or_app. right. exact Hr.
    + apply incl_appl, Hd.
Qed.

End GatherFacts.

(** ** Fuel: a run that did not run out of fuel is the same with more fuel *)

Section FuelFacts.
Context {Type_ RawDefinition SourceInfo : Type}.
Variable this : MasterFisher Type_ RawDefinition SourceInfo.

Lemma bind_settled (A B : Type) (m : Run SourceInfo A) (k : A -> Run SourceInfo B) :
  fst (bind m k) <> OutOfFuel ->
  fst m <> OutOfFuel
  /\ forall a d, m = (Returned a, d) -> fst (k a) <> OutOfFuel.
Proof.
  unfold bind. destruct m as [[a| |] d]; simpl; intros H.
  - split; [discriminate|]. intros a' d' E. inversion E. subst.
    destruct (k a') as [r d2]. exact H.
  - split; [discriminate|]. intros a' d' E. discriminate E.
  - contradiction.
Qed.

Lemma bind_more_fuel (A B : Type) (m m' : Run SourceInfo A)
  (k k' : A -> Run SourceInfo B) :
  fst (bind m k) <> OutOfFuel ->
  (fst m <> OutOfFuel -> m' = m) ->
  (forall a d, m = (Returned a, d) -> fst (k a) <> OutOfFuel -> k' a = k a) ->
  bind m' k' = bind m k.
Proof.
  intros H Hm Hk. destruct (bind_settled _ _ H) as [Hs Hka].
  rewrite (Hm Hs). destruct m as [[a| |] d]; try reflexivity.
  unfold bind. rewrite (Hk a d eq_refl (Hka a d eq_refl)). reflexivity.
Qed.

Lemma findSdType_loop_more_fuel (fuel : nat) :
  forall (fuel' : nat) (types : list Type_)
         (fs : list (Fishable Type_ RawDefinition SourceInfo))
         (history : list Metadata) (sd par : option string),
    fuel <= fuel' ->
    fst (findSdType_loop this fuel types fs history sd par) <> OutOfFuel ->
    findSdType_loop this fuel' types fs history sd par
    = findSdType_loop this fuel types fs history sd par.
Proof.
  induction fuel as [|fuel IH]; intros fuel' types fs history sd par Hle Hs.
  - destruct sd as [s|], par as [q|]; try (destruct fuel'; reflexivity).
    simpl in Hs. contradiction.
  - destruct fuel' as [|fuel']; [lia|].
    destruct sd as [s|], par as [q|]; try reflexivity.
    rewrite !findSdType_loop_step in *.
    destruct (firstMatch fs (resolveAlias this q) types) as [[fb pr]|];
      [|reflexivity].
    destruct (existsb (fun md => strictEq (url md) (url pr)) history);
      [reflexivity|].
    apply IH; [lia|exact Hs].
Qed.

Lemma fixMetadata_more_fuel
  (lookup lookup' : string -> Run SourceInfo (option Metadata)) (fuel fuel' : nat)
  (m : Metadata) (item : string) (types : list Type_)
  (fishable : Fishable Type_ RawDefinition SourceInfo)
  (fs : list (Fishable Type_ RawDefinition SourceInfo)) :
  fuel <= fuel' ->
  (forall i, fst (lookup i) <> OutOfFuel -> lookup' i = lookup i) ->
  fst (fixMetadata this lookup fuel m item types fishable fs) <> OutOfFuel ->
  fixMetadata this lookup' fuel' m item types fishable fs
  = fixMetadata this lookup fuel m item types fishable fs.
Proof.
  intros Hle Hlookup Hs. unfold fixMetadata in *.
  apply (bind_more_fuel _ _ Hs); [|reflexivity].
  destruct fishable as [p|t|f]; try reflexivity.
  unfold fixTankMetadata. intros Hs'.
  apply (bind_more_fuel _ _ Hs').
  - apply findSdType_loop_more_fuel, Hle.
  - intros sd d _.
    destruct (falsy (resourceType (set_sdType m sd))); [|reflexivity].
    destruct (instanceOfFor t (set_sdType m sd) item types) as [io|]; [|reflexivity].
    intros Hs''. apply (bind_more_fuel _ _ Hs''); [apply Hlookup|reflexivity].
Qed.

Theorem fishForMetadata_more_fuel (fuel : nat) :
  forall (fuel' : nat) (item : string) (types : list Type_),
    fuel <= fuel' ->
    fst (fishForMetadata this fuel item types) <> OutOfFuel ->
    fishForMetadata this fuel' item types = fishForMetadata this fuel item types.
Proof.
  induction fuel as [|fuel IH]; intros fuel' item types Hle;
    rewrite !fishForMetadata_unfold;
    destruct (fhir this) as [f|]; try reflexivity;
    destruct (FHIRDefinitions.fishForPredefinedResourceMetadata f
                (resolveAlias this item) types); try reflexivity;
    destruct (firstMatch (fishables this) (resolveAlias this item) types)
      as [[fb m]|]; try reflexivity;
    intros Hs; apply (bind_more_fuel _ _ Hs); try reflexivity;
    apply fixMetadata_more_fuel; try exact Hle.
  - simpl. intros i Hi. contradiction.
  - destruct fuel' as [|fuel']; [lia|]. simpl. intros i. apply IH. lia.
Qed.

(** ** Exceptions: with FHIR definitions and a package nothing throws *)

Lemma findSdType_loop_no_throw (fuel : nat) :
  forall (types : list Type_) (fs : list (Fishable Type_ RawDefinition SourceInfo))
         (history : list Metadata) (sd par : option string),
    fst (findSdType_loop this fuel types fs history sd par) <> Thrown.
Proof.
  induction fuel as [|fuel IH]; intros types fs history sd par.
  - destruct sd, par; simpl; discriminate.
  - destruct sd as [s|], par as [q|]; try (simpl; discriminate).
    rewrite findSdType_loop_step.
    destruct (firstMatch fs (resolveAlias this q) types) as [[fb pr]|];
      [|simpl; discriminate].
    destruct (existsb (fun md => strictEq (url md) (url pr)) history);
      [simpl; discriminate|apply IH].
Qed.

Lemma bind_no_throw (A B : Type) (m : Run SourceInfo A) (k : A -> Run SourceInfo B) :
  fst m <> Thrown -> (forall a, fst (k a) <> Thrown) -> fst (bind m k) <> Thrown.
Proof.
  unfold bind. destruct m as [[a| |] d]; simpl; intros Hm Hk.
  - specialize (Hk a). destruct (k a). exact Hk.
  - contradiction.
  - discriminate.
Qed.

Lemma fixMetadata_no_throw
  (lookup : string -> Run SourceInfo (option Metadata)) (fuel : nat)
  (m : Metadata) (item : string) (types : list Type_)
  (fishable : Fishable Type_ RawDefinition SourceInfo)
  (fs : list (Fishable Type_ RawDefinition SourceInfo))
  (p : Package.t Type_ RawDefinition) :
  pkg this = Some p ->
  (forall i, fst (lookup i) <> Thrown) ->
  fst (fixMetadata this lookup fuel m item types fishable fs) <> Thrown.
Proof.
  intros Hp Hlookup. unfold fixMetadata. apply bind_no_throw.
  - destruct fishable as [p'|t|f]; try (simpl; discriminate).
    unfold fixTankMetadata. apply bind_no_throw; [apply findSdType_loop_no_throw|].
    intros sd. destruct (falsy (resourceType (set_sdType m sd))); [|simpl; discriminate].
    destruct (instanceOfFor t (set_sdType m sd) item types); [|simpl; discriminate].
    apply bind_no_throw; [apply Hlookup|]. intros a. simpl. discriminate.
  - intros a. rewrite (addUrl_with_package this _ Hp). simpl. discriminate.
Qed.

Theorem fishForMetadata_no_throw (f : FHIRDefinitions.t Type_ RawDefinition)
  (p : Package.t Type_ RawDefinition) (fuel : nat) :
  fhir this = Some f -> pkg this = Some p ->
  forall (item : string) (types : list Type_),
    fst (fishForMetadata this fuel item types) <> Thrown.
Proof.
  intros Hf Hp. induction fuel as [|fuel IH]; intros item types;
    rewrite fishForMetadata_unfold, Hf;
    destruct (FHIRDefinitions.fishForPredefinedResourceMetadata f
                (resolveAlias this item) types); try (simpl; discriminate);
    destruct (firstMatch (fishables this) (resolveAlias this item) types)
      as [[fb m]|]; try (simpl; discriminate);
    (apply bind_no_throw; [|intros a; simpl; discriminate]);
    apply (fixMetadata_no_throw _ _ _ _ _ _ _ Hp); intros i; simpl.
  - discriminate.
  - apply IH.
Qed.

End FuelFacts.

(** * The claims *)

Section LookupOrder.
Context {Type_ RawDefinition SourceInfo : Type}.
Variable this : MasterFisher Type_ RawDefinition SourceInfo.

(** C1.  When the fast-path index of the FHIR definitions has no match for
    the (alias-resolved) identifier and the package has none either, a match
    in the tank makes [fishForFHIR] return [undefined], whatever the FHIR
    definitions hold under that identifier: their [fishForFHIR] is never the
    result. *)
Theorem fishForFHIR_tank_match_is_not_found
  (item : string) (types : list Type_)
  (f : FHIRDefinitions.t Type_ RawDefinition)
  (t : FSHTank.t Type_ SourceInfo) (e : FshEntity.t SourceInfo) :
  fhir this = Some f ->
  FHIRDefinitions.fishForPredefinedResource f (resolveAlias this item) types = None ->
  (forall p, pkg this = Some p ->
             Package.fishForFHIR p (resolveAlias this item) types = None) ->
  tank this = Some t ->
  FSHTank.fish t (resolveAlias this item) types = Some e ->
  fishForFHIR this item types = (Returned None, []).
Proof.
  intros Hf Hpre Hpkg Ht He. unfold fishForFHIR.
  rewrite Hf, Hpre, Ht, He.
  destruct (pkg this) as [p|]; [rewrite (Hpkg p eq_refl)|]; reflexivity.
Qed.

(** C7.  A match in the fast-path index of the FHIR definitions is what
    [fishForFHIR] and [fishForMetadata] return, unrepaired and without a
    diagnostic, whatever the package and the tank hold. *)
Theorem fast_path_match_is_returned_first
  (item : string) (types : list Type_)
  (f : FHIRDefinitions.t Type_ RawDefinition) :
  fhir this = Some f ->
  (forall result,
      FHIRDefinitions.fishForPredefinedResource f (resolveAlias this item) types
        = Some result ->
      fishForFHIR this item types = (Returned (Some result), []))
  /\ (forall result fuel,
      FHIRDefinitions.fishForPredefinedResourceMetadata f (resolveAlias this item) types
        = Some result ->
      fishForMetadata this fuel item types = (Returned (Some result), [])).
Proof.
  intros Hf. split.
  - intros result H. unfold fishForFHIR. rewrite Hf, H. reflexivity.
  - intros result fuel H. rewrite fishForMetadata_unfold, Hf, H. reflexivity.
Qed.

(** C9.  Without FHIR definitions every call of the three public operations
    throws, at the first dereference of [this.fhir], before the package or the
    tank is consulted; so an operation that does not throw on some input was
    called on a resolver that has its FHIR definitions. *)
Theorem operations_throw_without_fhir :
  (fhir this = None ->
   forall (fuel : nat) (item : string) (types : list Type_),
     fishForFHIR this item types = (Thrown, [])
     /\ fishForMetadata this fuel item types = (Thrown, [])
     /\ fishForMetadatas this fuel item types = (Thrown, []))
  /\ (forall (fuel : nat) (item : string) (types : list Type_),
        fst (fishForFHIR this item types) <> Thrown
        \/ fst (fishForMetadata this fuel item types) <> Thrown
        \/ fst (fishForMetadatas this fuel item types) <> Thrown ->
        exists f, fhir this = Some f).
Proof.
  assert (H : fhir this = None ->
              forall (fuel : nat) (item : string) (types : list Type_),
                fishForFHIR this item types = (Thrown, [])
                /\ fishForMetadata this fuel item types = (Thrown, [])
                /\ fishForMetadatas this fuel item types = (Thrown, [])).
  { intros Hf fuel item types. repeat split.
    - unfold fishForFHIR. rewrite Hf. reflexivity.
    - rewrite fishForMetadata_unfold, Hf. reflexivity.
    - unfold fishForMetadatas. rewrite Hf. reflexivity. }
  split; [exact H|].
  intros fuel item types Hnt.
  destruct (fhir this) as [f|] eqn:Hf; [exists f; reflexivity|].
  destruct (H eq_refl fuel item types) as (H1 & H2 & H3).
  rewrite H1, H2, H3 in Hnt. simpl in Hnt. tauto.
Qed.

End LookupOrder.

Section Repair.
Context {Type_ RawDefinition SourceInfo : Type}.
Variable this : MasterFisher Type_ RawDefinition SourceInfo.



(** C8.  A record [fishForMetadata] or [fishForMetadatas] returns for a match
    of the package or of the FHIR definitions equals the catalog's record in
    every field but url (a fast-path match in every field); the sdType of a
    record returned for a tank match is what the parent walk [findSdType]
    returned for it. *)
Theorem only_tank_matches_get_sdType :
  (forall (fuel : nat) (item : string) (types : list Type_) (r : Metadata)
          (d : list (Diagnostic SourceInfo)),
      fishForMetadata this fuel item types = (Returned (Some r), d) ->
      exists f, fhir this = Some f
        /\ (FHIRDefinitions.fishForPredefinedResourceMetadata f
              (resolveAlias this item) types = Some r
            \/ exists fishable m,
                firstMatch (fishables this) (resolveAlias this item) types
                  = Some (fishable, m)
                /\ match fishable with
                   | OfFSHTank t =>
                       exists d1,
                         findSdType this fuel m types (fishables this)
                           = (Returned (sdType r), d1)
                   | _ => sameExceptUrl m r /\ d = []
                   end))
  /\ (forall (fuel : nat) (item : string) (types : list Type_) (l : list Metadata)
             (d : list (Diagnostic SourceInfo)) (r : Metadata),
        fishForMetadatas this fuel item types = (Returned l, d) ->
        In r l ->
        exists f, fhir this = Some f
          /\ (In r (FHIRDefinitions.fishForPredefinedResourceMetadatas f
                      (resolveAlias this item) types)
              \/ exists fishable m,
                  In fishable (fishables this)
                  /\ In m (Fishable_fishForMetadatas fishable
                             (resolveAlias this item) types)
                  /\ match fishable with
                     | OfFSHTank t =>
                         exists d1,
                           findSdType this fuel m types (fishables this)
                             = (Returned (sdType r), d1)
                     | _ => sameExceptUrl m r
                     end)).
Proof.
  assert (Hfix : forall lookup fuel m r item types fishable fs d,
             fixMetadata this lookup fuel m item types fishable fs = (Returned r, d) ->
             match fishable with
             | OfFSHTank t =>
                 exists d1, findSdType this fuel m types fs = (Returned (sdType r), d1)
             | _ => sameExceptUrl m r /\ d = []
             end).
  { intros lookup fuel m r item types fishable fs d H.
    apply fixMetadata_returned in H. destruct H as (m' & Hadd & _ & _ & H).
    destruct (addUrl_returned this _ Hadd) as (_ & Hsame & _).
    destruct fishable as [p|t|f].
    - destruct H as [-> ->]. auto.
    - destruct H as [d1 H]. exists d1.
      destruct Hsame as (_ & _ & -> & _). exact H.
    - destruct H as [-> ->]. auto. }
  split.
  - intros fuel item types r d H.
    destruct (@fishForMetadata_origin _ _ _ this fuel item types r d H)
      as (f & Hf & [[Hpre _]|(_ & fb & m & Hm & Hrep)]);
      exists f; (split; [exact Hf|]).
    + left. exact Hpre.
    + right. exists fb, m. split; [exact Hm|]. apply (Hfix _ _ _ _ _ _ _ _ _ Hrep).
  - intros fuel item types l d r H Hin.
    destruct (@fishForMetadatas_origin _ _ _ this fuel item types l d r H Hin)
      as (f & Hf & [Hpre|(fb & m & dx & Hfb & Hm & Hrep)]);
      exists f; (split; [exact Hf|]).
    + left. exact Hpre.
    + right. exists fb, m. split; [exact Hfb|]. split; [exact Hm|].
      pose proof (Hfix _ _ _ _ _ _ _ _ _ Hrep) as Hc.
      destruct fb; [apply Hc|exact Hc|apply Hc].
Qed.

End Repair.

Section Priority.
Context {Type_ RawDefinition SourceInfo : Type}.
Variable this : MasterFisher Type_ RawDefinition SourceInfo.

(** C2, as amended.  For an identifier the fast-path index of the FHIR
    definitions does not match, a match in the package is what [fishForFHIR]
    returns, and the package's metadata is what [fishForMetadata] returns,
    with the url synthesized when the record has none and is not an inline
    instance (so the very record when it has a url); this whatever the FHIR
    definitions hold under the identifier outside the fast-path index. *)
Theorem package_has_priority_after_fast_path
  (item : string) (types : list Type_)
  (f : FHIRDefinitions.t Type_ RawDefinition) (p : Package.t Type_ RawDefinition) :
  fhir this = Some f ->
  pkg this = Some p ->
  (forall raw,
      FHIRDefinitions.fishForPredefinedResource f (resolveAlias this item) types = None ->
      Package.fishForFHIR p (resolveAlias this item) types = Some raw ->
      fishForFHIR this item types = (Returned (Some raw), []))
  /\ (forall m fuel,
      FHIRDefinitions.fishForPredefinedResourceMetadata f (resolveAlias this item) types
        = None ->
      Package.fishForMetadata p (resolveAlias this item) types = Some m ->
      fishForMetadata this fuel item types
        = (Returned (Some (set_url m (urlAfterRepair (Package.canonical p) m))), [])
      /\ sameExceptUrl m (set_url m (urlAfterRepair (Package.canonical p) m))
      /\ (forall u, url m = Some u -> u <> "" ->
          set_url m (urlAfterRepair (Package.canonical p) m) = m)).
Proof.
  intros Hf Hp. split.
  - intros raw Hpre Hraw. unfold fishForFHIR. rewrite Hf, Hpre, Hp, Hraw. reflexivity.
  - intros m fuel Hpre Hm. split; [|split].
    + rewrite fishForMetadata_unfold, Hf, Hpre, firstMatch_fishables, Hp, Hm.
      rewrite fixMetadata_not_tank by discriminate.
      rewrite (addUrl_with_package this _ Hp). reflexivity.
    + apply set_url_sameExceptUrl.
    + intros u Hu Hne. unfold urlAfterRepair, falsy. rewrite Hu.
      destruct (String.eqb u "") eqn:E.
      * apply String.eqb_eq in E. contradiction.
      * cbn [andb]. rewrite <- Hu. apply set_url_read.
Qed.

(** X20.  What [fishForMetadatas] returns has no two records that lodash
    [isEqual] equates (the same own keys holding the same values).  It is
    [uniqWith isEqual] of the gathered sequence: the fast-path matches, then,
    for the package, the tank and the FHIR definitions in this order, the
    matches of that catalog, each after [fixMetadata].  It holds the same
    records as the gathered sequence, each at its first occurrence: a record
    that does not occur before some position of the gathered sequence comes,
    in the result, right after the deduplicated records before it. *)
Theorem fishForMetadatas_deduplicates
  (fuel : nat) (item : string) (types : list Type_) (l : list Metadata)
  (d : list (Diagnostic SourceInfo)) :
  fishForMetadatas this fuel item types = (Returned l, d) ->
  NoDup l
  /\ fishables this
     = present (@OfPackage _ _ SourceInfo) (pkg this)
         ++ present (@OfFSHTank _ RawDefinition _) (tank this)
         ++ present (@OfFHIRDefinitions _ _ SourceInfo) (fhir this)
  /\ exists f parts,
      fhir this = Some f
      /\ Forall2
           (fun fishable part =>
              Forall2
                (fun m r => exists dx,
                     fixMetadata this (nestedLookup this fuel) fuel m
                       (resolveAlias this item) types fishable (fishables this)
                     = (Returned r, dx))
                (Fishable_fishForMetadatas fishable (resolveAlias this item) types)
                part)
           (fishables this) parts
      /\ let gathered :=
           FHIRDefinitions.fishForPredefinedResourceMetadatas f
             (resolveAlias this item) types ++ concat parts in
         l = uniqWith isEqual gathered
         /\ (forall x, In x l <-> In x gathered)
         /\ (forall l1 x l2,
                gathered = l1 ++ x :: l2 -> ~ In x l1 ->
                exists more, l = uniqWith isEqual l1 ++ x :: more).
Proof.
  unfold fishForMetadatas. intros H.
  destruct (fhir this) as [f|] eqn:Hf; [|discriminate].
  split_bind H. inversion H. subst l. clear H.
  apply gatherMetadatas_returned in Hrun. destruct Hrun as (parts & -> & Hparts).
  split; [|split; [unfold fishables; rewrite Hf; reflexivity|]].
  - rewrite uniqWith_uniqInto. apply uniqInto_NoDup. constructor.
  - exists f, parts. split; [reflexivity|]. split; [exact Hparts|].
    cbv zeta. split; [reflexivity|]. split.
    + intros x. rewrite uniqWith_uniqInto, uniqInto_In. simpl. tauto.
    + intros l1 x l2 -> Hx. apply uniqWith_first_occurrence, Hx.
Qed.

End Priority.

Section ParentWalk.
Context {Type_ RawDefinition SourceInfo : Type}.
Variable this : MasterFisher Type_ RawDefinition SourceInfo.

(** C10.  One iteration of the walk, on the parent's first match
    [parentResult]: when some record of the history has the url of
    [parentResult] (two absent urls being equal), the walk logs the
    circular-dependency error and returns an unknown sdType; when none has,
    it goes on with [parentResult] appended, logging nothing in this
    iteration.  So the walk takes the cycle branch whenever a record of the
    history and the new match both lack a url, whatever their parents are. *)
Theorem cycle_declared_exactly_on_equal_urls
  (fuel : nat) (types : list Type_)
  (fs : list (Fishable Type_ RawDefinition SourceInfo)) (history : list Metadata)
  (parent0 : string) (fishable : Fishable Type_ RawDefinition SourceInfo)
  (parentResult : Metadata) :
  firstMatch fs (resolveAlias this parent0) types = Some (fishable, parentResult) ->
  ((exists md, In md history /\ url md = url parentResult) ->
   findSdType_loop this (S fuel) types fs history None (Some parent0)
   = (Returned None,
      [mkDiagnostic (circularMessage this history parentResult)
         (circularLocation fishable (resolveAlias this parent0))]))
  /\ ((forall md, In md history -> url md <> url parentResult) ->
      findSdType_loop this (S fuel) types fs history None (Some parent0)
      = findSdType_loop this fuel types fs (history ++ [parentResult])
          (sdType parentResult) (parent parentResult))
  /\ ((exists md, In md history /\ url md = None) -> url parentResult = None ->
      findSdType_loop this (S fuel) types fs history None (Some parent0)
      = (Returned None,
         [mkDiagnostic (circularMessage this history parentResult)
            (circularLocation fishable (resolveAlias this parent0))])).
Proof.
  intros Hmatch.
  assert (Hcycle : (exists md, In md history /\ url md = url parentResult) ->
                   findSdType_loop this (S fuel) types fs history None (Some parent0)
                   = (Returned None,
                      [mkDiagnostic (circularMessage this history parentResult)
                         (circularLocation fishable (resolveAlias this parent0))])).
  { intros H. apply revisits_iff in H.
    rewrite findSdType_loop_step, Hmatch, H. reflexivity. }
  split; [exact Hcycle|]. split.
  - intros Hfresh. rewrite findSdType_loop_step, Hmatch.
    destruct (existsb (fun md => strictEq (url md) (url parentResult)) history) eqn:E;
      [|reflexivity].
    apply revisits_iff in E. destruct E as (md & Hin & Hurl).
    exfalso. exact (Hfresh md Hin Hurl).
  - intros (md & Hin & Hnone) Hpr. apply Hcycle. exists md.
    split; [exact Hin|congruence].
Qed.

(** C3.  A tank match [mA] for the identifier, without sdType, whose parent
    resolves to [mB], itself without sdType, whose parent resolves to a
    record with the url of [mA].  With a package to take the canonical from,
    and [mA] not an instance waiting for its resourceType:
    [fishForMetadata] returns the record of [mA] with [undefined] assigned
    to sdType and its url repaired, and logs exactly one error, whose message
    lists the names of the chain from [mA] on, joined by [" < "]; nothing is
    thrown.
    [fishForMetadatas] for the same identifier, when the walks of the other
    tank matches return, returns too, with that record in its result and that
    error in its log. *)
Theorem parent_cycle_is_reported_once
  (item : string) (types : list Type_) (fuel : nat)
  (f : FHIRDefinitions.t Type_ RawDefinition) (t : FSHTank.t Type_ SourceInfo)
  (p : Package.t Type_ RawDefinition) (mA mB mA' : Metadata) (pB pA : string)
  (fB fA : Fishable Type_ RawDefinition SourceInfo) :
  fhir this = Some f -> tank this = Some t -> pkg this = Some p ->
  FHIRDefinitions.fishForPredefinedResourceMetadata f (resolveAlias this item) types
    = None ->
  firstMatch (fishables this) (resolveAlias this item) types = Some (OfFSHTank t, mA) ->
  sdType mA = None -> parent mA = Some pB ->
  (falsy (resourceType mA) = true ->
   instanceOfFor t mA (resolveAlias this item) types = None) ->
  firstMatch (fishables this) (resolveAlias this pB) types = Some (fB, mB) ->
  sdType mB = None -> parent mB = Some pA ->
  firstMatch (fishables this) (resolveAlias this pA) types = Some (fA, mA') ->
  url mA' = url mA ->
  let r := set_url (set_sdType mA None)
             (urlAfterRepair (Package.canonical p) (set_sdType mA None)) in
  exists diagnostic names hint,
    fishForMetadata this (S (S fuel)) item types = (Returned (Some r), [diagnostic])
    /\ sdType r = None
    /\ message diagnostic
       = (("Circular dependency detected on parent relationships: "
             ++ String.concat " < " names) ++ hint)%string
    /\ (names = [name mA; name mB] \/ names = [name mA; name mB; name mA'])
    /\ ((forall m',
            In m' (FSHTank.fishForMetadatas t (resolveAlias this item) types) ->
            m' <> mA ->
            exists r' d',
              fixMetadata this (nestedLookup this (S (S fuel))) (S (S fuel)) m'
                (resolveAlias this item) types (OfFSHTank t) (fishables this)
              = (Returned r', d')) ->
        In mA (FSHTank.fishForMetadatas t (resolveAlias this item) types) ->
        exists l d,
          fishForMetadatas this (S (S fuel)) item types = (Returned l, d)
          /\ In r l /\ In diagnostic d).
Proof.
  intros Hf Ht Hp Hpre HA HsdA HparA Hinst HB HsdB HparB HA' Hurl r.
  assert (Hwalk : exists diagnostic names hint,
             findSdType this (S (S fuel)) mA types (fishables this)
             = (Returned None, [diagnostic])
             /\ message diagnostic
                = (("Circular dependency detected on parent relationships: "
                      ++ String.concat " < " names) ++ hint)%string
             /\ (names = [name mA; name mB] \/ names = [name mA; name mB; name mA'])).
  { unfold findSdType. rewrite HsdA, HparA, findSdType_loop_step, HB.
    destruct (existsb (fun md => strictEq (url md) (url mB)) [mA]) eqn:E.
    - destruct (circularMessage_names this [mA] mB) as [hint Hmsg].
      eexists _, _, hint. split; [reflexivity|]. split; [exact Hmsg|]. left. reflexivity.
    - rewrite HsdB, HparB, findSdType_loop_step, HA'.
      assert (E' : existsb (fun md => strictEq (url md) (url mA')) ([mA] ++ [mB]) = true).
      { apply revisits_iff. exists mA. split; [left; reflexivity|congruence]. }
      rewrite E'. destruct (circularMessage_names this ([mA] ++ [mB]) mA') as [hint Hmsg].
      eexists _, _, hint. split; [reflexivity|]. split; [exact Hmsg|].
      right. reflexivity. }
  destruct Hwalk as (diagnostic & names & hint & Hwalk & Hmsg & Hnames).
  assert (Hfix : fixMetadata this (nestedLookup this (S (S fuel))) (S (S fuel)) mA
                   (resolveAlias this item) types (OfFSHTank t) (fishables this)
                 = (Returned r, [diagnostic])).
  { rewrite (@fixMetadata_tank_no_backfill _ _ _ this _ _ t p mA _ _ _ _ _
               Hp Hwalk Hinst).
    reflexivity. }
  exists diagnostic, names, hint.
  split; [|split; [|split; [exact Hmsg|split; [exact Hnames|]]]].
  - rewrite fishForMetadata_unfold, Hf, Hpre, HA, Hfix. reflexivity.
  - destruct (set_url_sameExceptUrl (set_sdType mA None)
                (urlAfterRepair (Package.canonical p) (set_sdType mA None)))
      as (_ & _ & Hsd & _).
    exact Hsd.
  - intros Hothers HinA.
    assert (Hp' : forall m, addUrl this m
                  = ret (SourceInfo := SourceInfo)
                      (set_url m (urlAfterRepair (Package.canonical p) m))).
    { intros m. apply addUrl_with_package, Hp. }
    destruct (@fishForMetadatas_all_return _ _ _ this (S (S fuel)) item types f Hf)
      as (l & d & Hl & Hin).
    { intros fb m Hfb Hm. unfold fishables in Hfb. rewrite Hf, Ht, Hp in Hfb.
      simpl in Hfb. destruct Hfb as [<-|[<-|[<-|[]]]].
      - rewrite fixMetadata_not_tank by discriminate. rewrite Hp'. unfold ret. eauto.
      - destruct (Metadata_eq_dec m mA) as [->|Hne]; [eauto|].
        apply Hothers; assumption.
      - rewrite fixMetadata_not_tank by discriminate. rewrite Hp'. unfold ret. eauto. }
    exists l, d. split; [exact Hl|].
    destruct (Hin (OfFSHTank t) mA r [diagnostic]) as [Hr Hd].
    + unfold fishables. rewrite Ht. apply in_or_app. right.
      apply in_or_app. left. left. reflexivity.
    + exact HinA.
    + exact Hfix.
    + split; [exact Hr|]. apply Hd. left. reflexivity.
Qed.

(** C4, as amended.  A tank match [mA] for the identifier, without sdType,
    whose parent resolves to [mB], without sdType, whose parent resolves to
    [mC], with a known sdType, the three urls being pairwise different.  With
    a package to take the canonical from, and [mA] not an instance waiting for
    its resourceType: [fishForMetadata] returns the record of [mA] with the
    sdType of [mC], and logs nothing.  Each parent is looked up, after alias
    resolution, with [firstMatch] over [fishables]: in the package, else in
    the tank, else in the FHIR definitions. *)
Theorem sdType_derived_along_parent_chain
  (item : string) (types : list Type_) (fuel : nat)
  (f : FHIRDefinitions.t Type_ RawDefinition) (t : FSHTank.t Type_ SourceInfo)
  (p : Package.t Type_ RawDefinition) (mA mB mC : Metadata) (pB pC : string)
  (fB fC : Fishable Type_ RawDefinition SourceInfo) (known : string) :
  fhir this = Some f -> tank this = Some t -> pkg this = Some p ->
  FHIRDefinitions.fishForPredefinedResourceMetadata f (resolveAlias this item) types
    = None ->
  firstMatch (fishables this) (resolveAlias this item) types = Some (OfFSHTank t, mA) ->
  sdType mA = None -> parent mA = Some pB ->
  (falsy (resourceType mA) = true ->
   instanceOfFor t mA (resolveAlias this item) types = None) ->
  firstMatch (fishables this) (resolveAlias this pB) types = Some (fB, mB) ->
  sdType mB = None -> parent mB = Some pC ->
  firstMatch (fishables this) (resolveAlias this pC) types = Some (fC, mC) ->
  sdType mC = Some known ->
  url mB <> url mA -> url mC <> url mA -> url mC <> url mB ->
  let r := set_url (set_sdType mA (Some known))
             (urlAfterRepair (Package.canonical p) (set_sdType mA (Some known))) in
  fishForMetadata this (S (S fuel)) item types = (Returned (Some r), [])
  /\ sdType r = sdType mC
  /\ (forall i,
        firstMatch (fishables this) i types
        = match Package.fishForMetadata p i types with
          | Some m => Some (OfPackage p, m)
          | None =>
              match FSHTank.fishForMetadata t i types with
              | Some m => Some (OfFSHTank t, m)
              | None =>
                  match FHIRDefinitions.fishForMetadata f i types with
                  | Some m => Some (OfFHIRDefinitions f, m)
                  | None => None
                  end
              end
          end).
Proof.
  intros Hf Ht Hp Hpre HA HsdA HparA Hinst HB HsdB HparB HC HsdC HBA HCA HCB r.
  assert (Hwalk : findSdType this (S (S fuel)) mA types (fishables this)
                  = (Returned (Some known), [])).
  { unfold findSdType. rewrite HsdA, HparA, findSdType_loop_step, HB.
    assert (E1 : existsb (fun md => strictEq (url md) (url mB)) [mA] = false).
    { simpl. rewrite orb_false_r. apply strictEq_false. congruence. }
    rewrite E1, HsdB, HparB, findSdType_loop_step, HC.
    assert (E2 : existsb (fun md => strictEq (url md) (url mC)) ([mA] ++ [mB]) = false).
    { simpl. rewrite orb_false_r. apply orb_false_iff.
      split; apply strictEq_false; congruence. }
    rewrite E2, HsdC. apply findSdType_loop_done. left. discriminate. }
  split; [|split].
  - rewrite fishForMetadata_unfold, Hf, Hpre, HA.
    rewrite (@fixMetadata_tank_no_backfill _ _ _ this _ _ t p mA _ _ _ _ _
               Hp Hwalk Hinst).
    reflexivity.
  - destruct (set_url_sameExceptUrl (set_sdType mA (Some known))
                (urlAfterRepair (Package.canonical p) (set_sdType mA (Some known))))
      as (_ & _ & Hsd & _).
    unfold r. rewrite Hsd, HsdC. reflexivity.
  - intros i. rewrite firstMatch_fishables, Hp, firstMatch_after_package, Ht, Hf.
    reflexivity.
Qed.

End ParentWalk.

(** * The claims on the concrete scenarios *)

(** [MyAlias] resolves to [Patient], which the tank holds and the package
    does not: not found, though the FHIR definitions have a [Patient]. *)
Lemma fishForFHIR_tank_match_is_not_found_witness :
  FHIRDefinitions.fishForFHIR
    (listFHIR [] [] [("Patient", "fhir:Patient")] [hl7Patient]) "Patient" (@nil unit)
  = Some "fhir:Patient"
  /\ fishForFHIR tankOnlyResolver "MyAlias" [] = (Returned None, []).
Proof.
  split; [reflexivity|].
  eapply (@fishForFHIR_tank_match_is_not_found _ _ _ tankOnlyResolver "MyAlias" []).
  - reflexivity.
  - reflexivity.
  - intros p H. inversion H. reflexivity.
  - reflexivity.
  - reflexivity.
Defined.

(** The fast-path [Patient] wins over the package's. *)
Lemma fast_path_match_is_returned_first_witness :
  Package.fishForFHIR clashPackage "Patient" (@nil unit) = Some "pkg:Patient"
  /\ Package.fishForMetadata clashPackage "Patient" (@nil unit) = Some localPatient
  /\ fishForFHIR fastPathResolver "Patient" [] = (Returned (Some "fhir:Patient"), [])
  /\ fishForMetadata fastPathResolver 0 "Patient" [] = (Returned (Some hl7Patient), []).
Proof.
  destruct (@fast_path_match_is_returned_first _ _ _ fastPathResolver "Patient" []
              predefinedFHIR eq_refl) as [Hraw Hmeta].
  split; [reflexivity|]. split; [reflexivity|]. split.
  - apply Hraw. reflexivity.
  - apply Hmeta. reflexivity.
Defined.

(** Without FHIR definitions, [Patient] of the package and of the tank cannot
    be fished. *)
Lemma operations_throw_without_fhir_witness :
  Package.fishForFHIR clashPackage "Patient" (@nil unit) = Some "pkg:Patient"
  /\ fishForFHIR noFHIRResolver "Patient" [] = (Thrown, [])
  /\ fishForMetadata noFHIRResolver 3 "Patient" [] = (Thrown, [])
  /\ fishForMetadatas noFHIRResolver 3 "Patient" [] = (Thrown, []).
Proof.
  split; [reflexivity|].
  apply (proj1 (operations_throw_without_fhir noFHIRResolver) eq_refl 3 "Patient" []).
Defined.


(** The package's [Patient] comes back as the package gave it; the tank's
    profile [A] gets the sdType its parent walk found. *)
Lemma only_tank_matches_get_sdType_witness :
  fishForMetadata packageFirstResolver 0 "Patient" [] = (Returned (Some localPatient), [])
  /\ sameExceptUrl localPatient localPatient
  /\ exists r d1,
      fishForMetadata chainResolver 2 "A" [] = (Returned (Some r), [])
      /\ findSdType chainResolver 2 chainA [] (fishables chainResolver)
         = (Returned (sdType r), d1).
Proof.
  split; [reflexivity|]. split.
  - destruct (proj1 (@only_tank_matches_get_sdType _ _ _ packageFirstResolver)
                0 "Patient" [] localPatient [] eq_refl)
      as (f & Hf & [Hpre|(fishable & m & Hm & Hsame)]);
      inversion Hf; subst f.
    + discriminate Hpre.
    + inversion Hm. subst. apply Hsame.
  - eexists.
    match goal with
    | |- exists d1, ?run = (Returned (Some ?r), []) /\ _ =>
        destruct (proj1 (@only_tank_matches_get_sdType _ _ _ chainResolver)
                    2 "A" [] r [] eq_refl)
          as (f & Hf & [Hpre|(fishable & m & Hm & Hwalk)])
    end; inversion Hf; subst f.
    + discriminate Hpre.
    + inversion Hm. subst. destruct Hwalk as [d1 Hwalk].
      exists d1. split; [reflexivity|exact Hwalk].
Defined.

(** [Patient] is gathered four times, twice with each content, and returned
    twice: the tank's record has its sdType already, and the assignment of
    line 120 leaves it equal to the package's. *)
Lemma fishForMetadatas_deduplicates_witness :
  fishForMetadatas duplicateResolver 0 "Patient" []
  = (Returned [hl7Patient; localPatient], [])
  /\ NoDup [hl7Patient; localPatient].
Proof.
  split; [reflexivity|].
  apply (@fishForMetadatas_deduplicates _ _ _ duplicateResolver 0 "Patient" []
           [hl7Patient; localPatient] [] eq_refl).
Defined.

(** The package's [Patient] wins over the FHIR definitions' when the
    fast-path index does not hold it. *)
Lemma package_has_priority_after_fast_path_witness :
  FHIRDefinitions.fishForFHIR
    (listFHIR [] [] [("Patient", "fhir:Patient")] [hl7Patient]) "Patient" (@nil unit)
  = Some "fhir:Patient"
  /\ fishForFHIR packageFirstResolver "Patient" [] = (Returned (Some "pkg:Patient"), [])
  /\ fishForMetadata packageFirstResolver 0 "Patient" []
     = (Returned (Some localPatient), []).
Proof.
  destruct (@package_has_priority_after_fast_path _ _ _ packageFirstResolver
              "Patient" [] _ clashPackage eq_refl eq_refl) as [Hraw Hmeta].
  split; [reflexivity|]. split.
  - apply Hraw; reflexivity.
  - destruct (Hmeta localPatient 0 eq_refl eq_refl) as (Hrun & _ & Hsame).
    rewrite Hrun. reflexivity.
Defined.

(** The walk from the url-less [A]: its parent [B] has no url either, and
    the walk reports a cycle, though [B] derives from [Observation]. *)
Lemma cycle_declared_exactly_on_equal_urls_witness :
  parent urllessB = Some "Observation"
  /\ findSdType urllessChainResolver 1 urllessA [] (fishables urllessChainResolver)
     = (Returned None,
        [mkDiagnostic "Circular dependency detected on parent relationships: A < B"
           (Some "B.fsh")]).
Proof.
  split; [reflexivity|].
  destruct (@cycle_declared_exactly_on_equal_urls _ _ _ urllessChainResolver 0 []
              (fishables urllessChainResolver) [urllessA] "B" _ urllessB eq_refl)
    as (_ & _ & Hurlless).
  change (findSdType urllessChainResolver 1 urllessA []
            (fishables urllessChainResolver))
    with (findSdType_loop urllessChainResolver 1 [] (fishables urllessChainResolver)
            [urllessA] None (Some "B")).
  rewrite Hurlless.
  - reflexivity.
  - exists urllessA. split; [left; reflexivity|reflexivity].
  - reflexivity.
Defined.

(** [A] and [B] of the tank, each the parent of the other. *)
Lemma parent_cycle_is_reported_once_witness :
  exists r diagnostic,
    fishForMetadata cycleResolver 2 "A" [] = (Returned (Some r), [diagnostic])
    /\ sdType r = None
    /\ message diagnostic
       = "Circular dependency detected on parent relationships: A < B < A"
    /\ exists l d,
        fishForMetadatas cycleResolver 2 "A" [] = (Returned l, d)
        /\ In r l /\ In diagnostic d.
Proof.
  destruct (@parent_cycle_is_reported_once _ _ _ cycleResolver "A" [] 0
              emptyFHIR cycleTank emptyPackage cycleA cycleB cycleA "$B" "A"
              (OfFSHTank cycleTank) (OfFSHTank cycleTank)
              eq_refl eq_refl eq_refl eq_refl eq_refl eq_refl eq_refl
              (fun H : falsy (resourceType cycleA) = true =>
                 False_ind _ (Bool.diff_false_true H))
              eq_refl eq_refl eq_refl eq_refl eq_refl)
    as (diagnostic & names & hint & Hrun & Hsd & Hmsg & Hnames & Hmulti).
  eexists. exists diagnostic. split; [exact Hrun|]. split; [exact Hsd|].
  assert (Hd : diagnostic
               = mkDiagnostic
                   "Circular dependency detected on parent relationships: A < B < A"
                   (Some "A.fsh")).
  { assert (Hc : fishForMetadata cycleResolver 2 "A" []
                 = (Returned (Some (set_url (set_sdType cycleA None)
                                      (urlAfterRepair (Package.canonical emptyPackage)
                                         (set_sdType cycleA None)))),
                    [mkDiagnostic
                       "Circular dependency detected on parent relationships: A < B < A"
                       (Some "A.fsh")])) by reflexivity.
    rewrite Hrun in Hc. inversion Hc. reflexivity. }
  split; [rewrite Hd; reflexivity|].
  apply Hmulti.
  - intros m' [<-|[]] Hne. exfalso. apply Hne. reflexivity.
  - left. reflexivity.
Defined.

(** [A] under [B] under [Observation]. *)
Lemma sdType_derived_along_parent_chain_witness :
  exists r,
    fishForMetadata chainResolver 2 "A" [] = (Returned (Some r), [])
    /\ sdType r = Some "Observation".
Proof.
  destruct (@sdType_derived_along_parent_chain _ _ _ chainResolver "A" [] 0
              observationFHIR chainTank emptyPackage chainA chainB hl7Observation
              "B" "Observation" (OfFSHTank chainTank) (OfFHIRDefinitions observationFHIR)
              "Observation"
              eq_refl eq_refl eq_refl eq_refl eq_refl eq_refl eq_refl
              (fun H : falsy (resourceType chainA) = true =>
                 False_ind _ (Bool.diff_false_true H))
              eq_refl eq_refl eq_refl eq_refl eq_refl)
    as (Hrun & Hsd & _); try (intros H; discriminate H).
  eexists. split; [exact Hrun|exact Hsd].
Defined.

(** The FHIR definitions alone do not make the operations total: without a
    package, the url of a tank instance cannot be synthesized, and
    [this.pkg.config] throws; an inline instance, which needs no url, is
    returned. *)
Example url_synthesis_throws_without_package :
  fishForMetadata noPackageResolver 1 "MyPatient" [] = (Thrown, [])
  /\ fishForMetadatas noPackageResolver 1 "MyPatient" [] = (Thrown, [])
  /\ fishForMetadata
       (mkMasterFisher (tank (instanceResolver "Inline")) (Some emptyFHIR) None)
       1 "MyPatient" []
     = (Returned (Some (set_sdType (patientInstance "Inline") None)), []).
Proof. repeat split. Qed.

(** * Where the claims as stated fail *)

(** C2 as stated fails on [Patient], which the package and the FHIR
    definitions both hold: the fast-path index holds it too, and both
    operations return the content of the FHIR definitions.  And the metadata
    returned for [Example1], which only the package holds, is not the
    package's record: it has a url. *)
Lemma package_priority_counterexample :
  Package.fishForFHIR clashPackage "Patient" (@nil unit) = Some "pkg:Patient"
  /\ FHIRDefinitions.fishForFHIR predefinedFHIR "Patient" (@nil unit)
     = Some "fhir:Patient"
  /\ fishForFHIR fastPathResolver "Patient" [] = (Returned (Some "fhir:Patient"), [])
  /\ fishForFHIR fastPathResolver "Patient" [] <> (Returned (Some "pkg:Patient"), [])
  /\ Package.fishForMetadata clashPackage "Patient" (@nil unit) = Some localPatient
  /\ FHIRDefinitions.fishForMetadata predefinedFHIR "Patient" (@nil unit)
     = Some hl7Patient
  /\ fishForMetadata fastPathResolver 2 "Patient" [] = (Returned (Some hl7Patient), [])
  /\ fishForMetadata fastPathResolver 2 "Patient" [] <> (Returned (Some localPatient), [])
  /\ fishForMetadata urllessPackageResolver 2 "Example1" []
     = (Returned
          (Some (set_url exportedExample (Some "http://example.org/Patient/example-1"))),
        [])
  /\ fishForMetadata urllessPackageResolver 2 "Example1" []
     <> (Returned (Some exportedExample), []).
Proof.
  repeat split; try reflexivity; intros H; inversion H.
Qed.

(** C4 as stated fails on the chain [A] under [B] under [Observation] when
    the tank's records of [A] and [B] have no url (the walk reports a cycle
    at [B]), and when [A] is matched in the package (no walk is made): the
    record returned for [A] has no sdType. *)
Lemma sdType_derivation_counterexample :
  sdType urllessA = None /\ parent urllessA = Some "B"
  /\ sdType urllessB = None /\ parent urllessB = Some "Observation"
  /\ sdType hl7Observation = Some "Observation"
  /\ (exists r diagnostic,
         fishForMetadata urllessChainResolver 3 "A" []
         = (Returned (Some r), [diagnostic])
         /\ sdType r = None /\ sdType r <> sdType hl7Observation)
  /\ sdType chainA = None /\ parent chainA = Some "B"
  /\ sdType chainB = None /\ parent chainB = Some "Observation"
  /\ (exists r,
         fishForMetadata exportedChainResolver 3 "A" [] = (Returned (Some r), [])
         /\ sdType r = None /\ sdType r <> sdType hl7Observation).
Proof.
  repeat split; try reflexivity.
  - eexists. eexists. split; [reflexivity|]. split; [reflexivity|discriminate].
  - eexists. split; [reflexivity|]. split; [reflexivity|discriminate].
Qed.

(** C6.  The value set that the package and the tank both hold, with the same
    metadata: [fishForMetadatas] returns two records for it, which read the
    same in every property.  The tank's record went through
    [metadata.sdType = this.findSdType(...)], which gave it the key [sdType]
    holding [undefined]; the package's record has no such key, and lodash
    [isEqual] does not equate them. *)
Theorem fishForMetadatas_returns_records_with_equal_properties :
  Package.fishForMetadatas valueSetPackage "MyValueSet" (@nil unit) = [exportedValueSet]
  /\ FSHTank.fishForMetadatas valueSetTank "MyValueSet" (@nil unit) = [exportedValueSet]
  /\ fishForMetadatas valueSetResolver 0 "MyValueSet" []
     = (Returned [exportedValueSet; set_sdType exportedValueSet None], [])
  /\ sameProperties exportedValueSet (set_sdType exportedValueSet None)
  /\ isEqual exportedValueSet (set_sdType exportedValueSet None) = false.
Proof.
  repeat split.
Qed.

(** * Further properties of the parent walk *)

Section WalkAlongChains.
Context {Type_ RawDefinition SourceInfo : Type}.
Variable this : MasterFisher Type_ RawDefinition SourceInfo.

Lemma last_cons (A : Type) (l : list A) (a d : A) : last (a :: l) d = last l a.
Proof.
  revert a d. induction l as [|b l IH]; intros a d; [reflexivity|].
  change (last (a :: b :: l) d) with (last (b :: l) d).
  rewrite (IH b d), (IH b a). reflexivity.
Qed.

Lemma fresh_url_not_revisited (history : list Metadata) (m : Metadata) :
  ~ In (url m) (map url history) ->
  existsb (fun md => strictEq (url md) (url m)) history = false.
Proof.
  intros Hfresh.
  destruct (existsb (fun md => strictEq (url md) (url m)) history) eqn:E;
    [|reflexivity].
  apply revisits_iff in E. destruct E as (md & Hin & Hurl).
  exfalso. apply Hfresh. rewrite <- Hurl. apply in_map, Hin.
Qed.

(** The walk follows a chain of records with pairwise different urls to its
    last record, one iteration per record, logging nothing on the way. *)
Lemma findSdType_loop_along (rest : list Metadata) :
  forall (fuel : nat) (types : list Type_)
         (fs : list (Fishable Type_ RawDefinition SourceInfo))
         (seen : list Metadata) (m : Metadata),
    linked this types fs m rest ->
    NoDup (map url (seen ++ m :: rest)) ->
    findSdType_loop this (length rest + fuel) types fs (seen ++ [m])
      (sdType m) (parent m)
    = findSdType_loop this fuel types fs (seen ++ m :: rest)
        (sdType (last rest m)) (parent (last rest m)).
Proof.
  induction rest as [|next rest IH]; intros fuel types fs seen m Hlinked Hnodup.
  - reflexivity.
  - destruct Hlinked as (Hsd & (p & fishable & Hpar & Hmatch) & Hrest).
    assert (Hassoc : seen ++ m :: next :: rest = (seen ++ [m]) ++ next :: rest).
    { rewrite <- app_assoc. reflexivity. }
    rewrite Hsd, Hpar. change (length (next :: rest) + fuel) with (S (length rest + fuel)).
    rewrite findSdType_loop_step, Hmatch.
    rewrite Hassoc in Hnodup. rewrite fresh_url_not_revisited.
    + rewrite (IH fuel types fs (seen ++ [m]) next Hrest Hnodup).
      rewrite Hassoc, last_cons. reflexivity.
    + rewrite map_app in Hnodup. apply NoDup_remove_2 in Hnodup.
      intros Hin. apply Hnodup. apply in_or_app. left. exact Hin.
Qed.

Lemma findSdType_along (types : list Type_)
  (fs : list (Fishable Type_ RawDefinition SourceInfo))
  (meta : Metadata) (rest : list Metadata) (fuel : nat) :
  linked this types fs meta rest ->
  NoDup (map url (meta :: rest)) ->
  findSdType this (length rest + fuel) meta types fs
  = findSdType_loop this fuel types fs (meta :: rest)
      (sdType (last rest meta)) (parent (last rest meta)).
Proof.
  intros Hlinked Hnodup.
  exact (findSdType_loop_along rest fuel types fs [] meta Hlinked Hnodup).
Qed.

(** X4.  A parent chain of any depth, with pairwise different urls, that ends
    in a record with a known sdType: the walk from its first record returns
    that sdType and logs nothing, for every fuel from the depth of the chain
    on. *)
Theorem findSdType_follows_chain_to_known_type
  (types : list Type_) (fs : list (Fishable Type_ RawDefinition SourceInfo))
  (meta : Metadata) (rest : list Metadata) (known : string) (fuel : nat) :
  linked this types fs meta rest ->
  NoDup (map url (meta :: rest)) ->
  sdType (last rest meta) = Some known ->
  findSdType this (length rest + fuel) meta types fs = (Returned (Some known), []).
Proof.
  intros Hlinked Hnodup Hknown.
  rewrite (@findSdType_along types fs meta rest fuel Hlinked Hnodup), Hknown. apply findSdType_loop_done. left. discriminate.
Qed.

(** X5.  A parent chain of any depth, with pairwise different urls, whose
    last record has no sdType and a parent whose first match has the url of
    a record of the chain: the walk returns an unknown sdType and logs
    exactly one error; its message lists the names of the whole chain, oldest
    first, then the name of the revisiting match. *)
Theorem findSdType_reports_cycle_of_any_length
  (types : list Type_) (fs : list (Fishable Type_ RawDefinition SourceInfo))
  (meta : Metadata) (rest : list Metadata) (p : string)
  (fishable : Fishable Type_ RawDefinition SourceInfo) (back : Metadata)
  (fuel : nat) :
  linked this types fs meta rest ->
  NoDup (map url (meta :: rest)) ->
  sdType (last rest meta) = None ->
  parent (last rest meta) = Some p ->
  firstMatch fs (resolveAlias this p) types = Some (fishable, back) ->
  In (url back) (map url (meta :: rest)) ->
  findSdType this (length rest + S fuel) meta types fs
  = (Returned None,
     [mkDiagnostic (circularMessage this (meta :: rest) back)
        (circularLocation fishable (resolveAlias this p))])
  /\ exists hint,
      circularMessage this (meta :: rest) back
      = (("Circular dependency detected on parent relationships: "
            ++ String.concat " < " (map name (meta :: rest) ++ [name back])%list)
           ++ hint)%string.
Proof.
  intros Hlinked Hnodup Hsd Hpar Hmatch Hback. split.
  - rewrite (@findSdType_along types fs meta rest (S fuel) Hlinked Hnodup).
    rewrite Hsd, Hpar, findSdType_loop_step, Hmatch.
    assert (E : existsb (fun md => strictEq (url md) (url back)) (meta :: rest) = true).
    { apply revisits_iff. apply in_map_iff in Hback.
      destruct Hback as (md & Hurl & Hin). exists md. auto. }
    rewrite E. reflexivity.
  - destruct (circularMessage_names this (meta :: rest) back) as [hint Hmsg].
    exists hint. rewrite Hmsg, map_app. reflexivity.
Qed.

(** X6.  A parent chain of any depth, with pairwise different urls, whose
    last record has no sdType and either no parent or a parent that no
    fishable has metadata for: the walk returns an unknown sdType and logs
    nothing. *)
Theorem findSdType_ends_silently_at_dead_end
  (types : list Type_) (fs : list (Fishable Type_ RawDefinition SourceInfo))
  (meta : Metadata) (rest : list Metadata) (fuel : nat) :
  linked this types fs meta rest ->
  NoDup (map url (meta :: rest)) ->
  sdType (last rest meta) = None ->
  (parent (last rest meta) = None
   \/ exists p, parent (last rest meta) = Some p
        /\ forall fishable, In fishable fs ->
             Fishable_fishForMetadata fishable (resolveAlias this p) types = None) ->
  findSdType this (length rest + S fuel) meta types fs = (Returned None, []).
Proof.
  intros Hlinked Hnodup Hsd Hend.
  rewrite (@findSdType_along types fs meta rest (S fuel) Hlinked Hnodup), Hsd. destruct Hend as [Hnone|(p & Hpar & Hmiss)].
  - rewrite Hnone. reflexivity.
  - rewrite Hpar, findSdType_loop_step.
    destruct (firstMatch fs (resolveAlias this p) types) as [[fishable m]|] eqn:E;
      [|reflexivity].
    apply firstMatch_Some in E. destruct E as [Hin Hget].
    rewrite (Hmiss fishable Hin) in Hget. discriminate Hget.
Qed.

End WalkAlongChains.

Section WalkInvariants.
Context {Type_ RawDefinition SourceInfo : Type}.
Variable this : MasterFisher Type_ RawDefinition SourceInfo.

(** The history holds pairwise different urls, all among [urls]; so it
    cannot grow beyond [urls], and the loop ends before the fuel does. *)
Lemma findSdType_loop_ends (urls : list (option string)) (types : list Type_)
  (fs : list (Fishable Type_ RawDefinition SourceInfo)) :
  (forall p fishable m, firstMatch fs p types = Some (fishable, m) -> In (url m) urls) ->
  forall (fuel : nat) (history : list Metadata) (sd par : option string),
    NoDup (map url history) ->
    incl (map url history) urls ->
    length urls < fuel + length history ->
    fst (findSdType_loop this fuel types fs history sd par) <> OutOfFuel.
Proof.
  intros Hurls. induction fuel as [|fuel IH]; intros history sd par Hnodup Hincl Hlen.
  - exfalso. pose proof (NoDup_incl_length Hnodup Hincl) as Hle.
    rewrite length_map in Hle. lia.
  - destruct sd as [s|], par as [q|]; try (simpl; discriminate).
    rewrite findSdType_loop_step.
    destruct (firstMatch fs (resolveAlias this q) types) as [[fishable m]|] eqn:E;
      [|simpl; discriminate].
    destruct (existsb (fun md => strictEq (url md) (url m)) history) eqn:Hseen;
      [simpl; discriminate|].
    apply IH.
    + rewrite map_app. apply NoDup_app; [exact Hnodup|repeat constructor; intros []|].
      intros u Hu [<-|[]]. apply in_map_iff in Hu. destruct Hu as (md & Hurl & Hin).
      assert (Htrue : existsb (fun md => strictEq (url md) (url m)) history = true).
      { apply revisits_iff. exists md. auto. }
      congruence.
    + rewrite map_app. apply incl_app; [exact Hincl|].
      intros u [<-|[]]. exact (Hurls _ _ _ E).
    + rewrite length_app. simpl. lia.
Qed.

Lemma findSdType_ends
  (urls : list (option string)) (meta : Metadata) (types : list Type_)
  (fs : list (Fishable Type_ RawDefinition SourceInfo)) :
  (forall p fishable m, firstMatch fs p types = Some (fishable, m) -> In (url m) urls) ->
  In (url meta) urls ->
  exists sd d,
    forall fuel, length urls <= fuel ->
                 findSdType this fuel meta types fs = (Returned sd, d).
Proof.
  intros Hurls Hmeta.
  assert (Hends : fst (findSdType this (length urls) meta types fs) <> OutOfFuel).
  { unfold findSdType. apply (@findSdType_loop_ends urls types fs Hurls).
    - repeat constructor. intros [].
    - intros u [<-|[]]. exact Hmeta.
    - simpl. lia. }
  pose proof (@findSdType_loop_no_throw _ _ _ this (length urls) types fs [meta]
                (sdType meta) (parent meta)) as Hnothrow.
  fold (findSdType this (length urls) meta types fs) in Hnothrow.
  destruct (findSdType this (length urls) meta types fs) as [[sd| |] d] eqn:E;
    simpl in *; try congruence.
  exists sd, d. intros fuel Hle. unfold findSdType in *.
  rewrite (@findSdType_loop_more_fuel _ _ _ this (length urls) fuel types fs [meta]
             (sdType meta) (parent meta) Hle); [exact E|].
  rewrite E. simpl. discriminate.
Qed.

(** X7.  When the urls of the start record and of every record the
    fishables can return for a parent are among finitely many [urls], the
    walk ends: it returns one result, the same for every fuel from the number
    of those urls on. *)
Theorem findSdType_ends_when_urls_are_finite
  (urls : list (option string)) (meta : Metadata) (types : list Type_)
  (fs : list (Fishable Type_ RawDefinition SourceInfo)) :
  (forall p fishable m, firstMatch fs p types = Some (fishable, m) -> In (url m) urls) ->
  In (url meta) urls ->
  exists sd d,
    forall fuel, length urls <= fuel ->
                 findSdType this fuel meta types fs = (Returned sd, d).
Proof.
  exact (@findSdType_ends urls meta types fs).
Qed.

Lemma findSdType_loop_log (fuel : nat) :
  forall (types : list Type_) (fs : list (Fishable Type_ RawDefinition SourceInfo))
         (history : list Metadata) (sd par : option string)
         (out : Outcome (option string)) (d : list (Diagnostic SourceInfo)),
    findSdType_loop this fuel types fs history sd par = (out, d) ->
    d = [] \/ (out = Returned None /\ exists diagnostic, d = [diagnostic]).
Proof.
  induction fuel as [|fuel IH]; intros types fs history sd par out d H.
  - destruct sd, par; inversion H; left; reflexivity.
  - destruct sd as [s|], par as [q|]; try (inversion H; left; reflexivity).
    rewrite findSdType_loop_step in H.
    destruct (firstMatch fs (resolveAlias this q) types) as [[fishable m]|];
      [|inversion H; left; reflexivity].
    destruct (existsb (fun md => strictEq (url md) (url m)) history).
    + inversion H. right. split; [reflexivity|]. eexists. reflexivity.
    + exact (IH _ _ _ _ _ _ _ H).
Qed.

(** X8.  However a walk ends, it has logged nothing or exactly one error, and
    a walk that has logged an error has returned an unknown sdType: a known
    sdType never comes with a diagnostic. *)
Theorem findSdType_logs_at_most_one_error
  (fuel : nat) (meta : Metadata) (types : list Type_)
  (fs : list (Fishable Type_ RawDefinition SourceInfo))
  (out : Outcome (option string)) (d : list (Diagnostic SourceInfo)) :
  findSdType this fuel meta types fs = (out, d) ->
  d = [] \/ (out = Returned None /\ exists diagnostic, d = [diagnostic]).
Proof.
  unfold findSdType. apply findSdType_loop_log.
Qed.

Lemma findSdType_loop_origin (fuel : nat) :
  forall (types : list Type_) (fs : list (Fishable Type_ RawDefinition SourceInfo))
         (history : list Metadata) (sd par : option string) (known : string)
         (d : list (Diagnostic SourceInfo)),
    findSdType_loop this fuel types fs history sd par = (Returned (Some known), d) ->
    sd = Some known
    \/ exists fishable p m,
        In fishable fs
        /\ Fishable_fishForMetadata fishable p types = Some m
        /\ sdType m = Some known.
Proof.
  induction fuel as [|fuel IH]; intros types fs history sd par known d H.
  - destruct sd, par; inversion H; left; reflexivity.
  - destruct sd as [s|], par as [q|]; try (inversion H; left; reflexivity).
    rewrite findSdType_loop_step in H.
    destruct (firstMatch fs (resolveAlias this q) types) as [[fishable m]|] eqn:E;
      [|inversion H].
    destruct (existsb (fun md => strictEq (url md) (url m)) history);
      [inversion H|].
    apply firstMatch_Some in E. destruct E as [Hin Hget].
    destruct (IH _ _ _ _ _ _ _ H) as [Hm|Hdeeper]; [|right; exact Hdeeper].
    right. exists fishable, (resolveAlias this q), m. auto.
Qed.

(** X9.  An sdType the walk returns is never made up: it is the sdType of
    the start record, or the sdType of a record one of the fishables returned
    for some identifier. *)
Theorem findSdType_returns_a_catalog_sdType
  (fuel : nat) (meta : Metadata) (types : list Type_)
  (fs : list (Fishable Type_ RawDefinition SourceInfo)) (known : string)
  (d : list (Diagnostic SourceInfo)) :
  findSdType this fuel meta types fs = (Returned (Some known), d) ->
  sdType meta = Some known
  \/ exists fishable p m,
      In fishable fs
      /\ Fishable_fishForMetadata fishable p types = Some m
      /\ sdType m = Some known.
Proof.
  unfold findSdType. apply findSdType_loop_origin.
Qed.

End WalkInvariants.

(** * Further properties of the three operations *)

Section OperationFacts.
Context {Type_ RawDefinition SourceInfo : Type}.
Variable this : MasterFisher Type_ RawDefinition SourceInfo.

Lemma mapM_no_throw (A B : Type) (f : A -> Run SourceInfo B) (l : list A) :
  (forall x, fst (f x) <> Thrown) -> fst (mapM f l) <> Thrown.
Proof.
  intros Hf. induction l as [|x l IH]; simpl; [discriminate|].
  apply bind_no_throw; [apply Hf|]. intros y.
  apply bind_no_throw; [exact IH|]. intros ys. simpl. discriminate.
Qed.

Lemma nestedLookup_no_throw (f : FHIRDefinitions.t Type_ RawDefinition)
  (p : Package.t Type_ RawDefinition) (fuel : nat) (i : string) :
  fhir this = Some f -> pkg this = Some p ->
  fst (nestedLookup this fuel i) <> Thrown.
Proof.
  intros Hf Hp. destruct fuel as [|fuel]; simpl; [discriminate|].
  exact (@fishForMetadata_no_throw _ _ _ this f p fuel Hf Hp i []).
Qed.

Lemma returned_or_out_of_fuel (A : Type) (run : Run SourceInfo A) :
  fst run <> Thrown ->
  (exists a d, run = (Returned a, d)) \/ (exists d, run = (OutOfFuel, d)).
Proof.
  destruct run as [[a| |] d]; simpl; intros H.
  - left. exists a, d. reflexivity.
  - contradiction.
  - right. exists d. reflexivity.
Qed.

Lemma gatherMetadatas_no_throw (f : FHIRDefinitions.t Type_ RawDefinition)
  (p : Package.t Type_ RawDefinition) (fuel : nat) (item : string)
  (types : list Type_) (all fs : list (Fishable Type_ RawDefinition SourceInfo)) :
  fhir this = Some f -> pkg this = Some p ->
  fst (gatherMetadatas this fuel item types all fs) <> Thrown.
Proof.
  intros Hf Hp. induction fs as [|fishable fs IH]; simpl; [discriminate|].
  apply bind_no_throw.
  - apply mapM_no_throw. intros m.
    apply (@fixMetadata_no_throw _ _ _ this _ _ _ _ _ _ _ p Hp).
    intros i. exact (nestedLookup_no_throw fuel i Hf Hp).
  - intros results. apply bind_no_throw; [exact IH|]. intros more. simpl. discriminate.
Qed.

(** X1.  A resolver that has its FHIR definitions and its package never
    raises the [TypeError] of dereferencing an absent catalog.  [fishForFHIR],
    which has no loop and no recursion, always returns, with an empty log.  A
    run of [fishForMetadata] or of [fishForMetadatas] either has returned a
    value or has not ended within the fuel: the parent walk or the lookup that
    [fixMetadata] nests is still going. *)
Theorem no_absent_catalog_error_with_fhir_and_package
  (f : FHIRDefinitions.t Type_ RawDefinition) (p : Package.t Type_ RawDefinition) :
  fhir this = Some f -> pkg this = Some p ->
  forall (fuel : nat) (item : string) (types : list Type_),
    (exists raw, fishForFHIR this item types = (Returned raw, []))
    /\ ((exists r d, fishForMetadata this fuel item types = (Returned r, d))
        \/ (exists d, fishForMetadata this fuel item types = (OutOfFuel, d)))
    /\ ((exists l d, fishForMetadatas this fuel item types = (Returned l, d))
        \/ (exists d, fishForMetadatas this fuel item types = (OutOfFuel, d))).
Proof.
  intros Hf Hp fuel item types. split; [|split].
  - unfold fishForFHIR. rewrite Hf.
    repeat match goal with
           | |- context [match ?x with _ => _ end] => destruct x
           end; eexists; reflexivity.
  - apply returned_or_out_of_fuel.
    exact (@fishForMetadata_no_throw _ _ _ this f p fuel Hf Hp item types).
  - apply returned_or_out_of_fuel.
    unfold fishForMetadatas. rewrite Hf.
    apply bind_no_throw; [|intros a; simpl; discriminate].
    exact (gatherMetadatas_no_throw fuel _ types _ _ Hf Hp).
Qed.

Lemma firstMatch_None (fs : list (Fishable Type_ RawDefinition SourceInfo))
  (item : string) (types : list Type_) :
  (forall fishable, In fishable fs ->
                    Fishable_fishForMetadata fishable item types = None) ->
  firstMatch fs item types = None.
Proof.
  induction fs as [|fishable fs IH]; intros Hnone; [reflexivity|].
  simpl. rewrite (Hnone fishable (or_introl eq_refl)).
  apply IH. intros fb Hin. apply Hnone. right. exact Hin.
Qed.

Lemma gatherMetadatas_nothing (fuel : nat) (item : string) (types : list Type_)
  (all fs : list (Fishable Type_ RawDefinition SourceInfo)) :
  (forall fishable, In fishable fs ->
                    Fishable_fishForMetadatas fishable item types = []) ->
  gatherMetadatas this fuel item types all fs = (Returned [], []).
Proof.
  induction fs as [|fishable fs IH]; intros Hnone; [reflexivity|].
  simpl. rewrite (Hnone fishable (or_introl eq_refl)). simpl.
  rewrite IH; [reflexivity|]. intros fb Hin. apply Hnone. right. exact Hin.
Qed.

(** X2.  An identifier that no catalog knows is not an error: with the FHIR
    definitions present, [fishForFHIR] and [fishForMetadata] return
    [undefined] and [fishForMetadatas] returns the empty array, with no
    diagnostic and for every fuel, also when the resolver has no package or no
    tank. *)
Theorem unknown_identifier_is_not_found_silently
  (f : FHIRDefinitions.t Type_ RawDefinition)
  (item : string) (types : list Type_) (fuel : nat) :
  fhir this = Some f ->
  FHIRDefinitions.fishForPredefinedResource f (resolveAlias this item) types = None ->
  FHIRDefinitions.fishForPredefinedResourceMetadata f (resolveAlias this item) types
    = None ->
  FHIRDefinitions.fishForPredefinedResourceMetadatas f (resolveAlias this item) types
    = [] ->
  FHIRDefinitions.fishForFHIR f (resolveAlias this item) types = None ->
  (forall p, pkg this = Some p ->
             Package.fishForFHIR p (resolveAlias this item) types = None) ->
  (forall t, tank this = Some t ->
             FSHTank.fish t (resolveAlias this item) types = None) ->
  (forall fishable,
      In fishable (fishables this) ->
      Fishable_fishForMetadata fishable (resolveAlias this item) types = None
      /\ Fishable_fishForMetadatas fishable (resolveAlias this item) types = []) ->
  fishForFHIR this item types = (Returned None, [])
  /\ fishForMetadata this fuel item types = (Returned None, [])
  /\ fishForMetadatas this fuel item types = (Returned [], []).
Proof.
  intros Hf Hpre Hprem Hprems Hraw Hpkg Htank Hnone. repeat split.
  - unfold fishForFHIR. rewrite Hf, Hpre, Hraw.
    destruct (pkg this) as [p|]; [rewrite (Hpkg p eq_refl)|];
      (destruct (tank this) as [t|]; [rewrite (Htank t eq_refl)|]); reflexivity.
  - rewrite fishForMetadata_unfold, Hf, Hprem, firstMatch_None; [reflexivity|].
    intros fb Hin. apply Hnone, Hin.
  - unfold fishForMetadatas. rewrite Hf, Hprems, gatherMetadatas_nothing; [reflexivity|].
    intros fb Hin. apply Hnone, Hin.
Qed.

(** X16.  [fishForFHIR] logs nothing, and a definition it returns is one
    that the fast-path index, the package or the FHIR definitions returned for
    the alias-resolved identifier: never anything of the tank, which it only
    asks whether the identifier exists. *)
Theorem fishForFHIR_returns_a_catalog_definition
  (item : string) (types : list Type_)
  (out : Outcome (option RawDefinition)) (d : list (Diagnostic SourceInfo)) :
  fishForFHIR this item types = (out, d) ->
  d = []
  /\ forall raw, out = Returned (Some raw) ->
       exists f, fhir this = Some f
         /\ (FHIRDefinitions.fishForPredefinedResource f (resolveAlias this item) types
               = Some raw
             \/ (exists p, pkg this = Some p
                   /\ Package.fishForFHIR p (resolveAlias this item) types = Some raw)
             \/ FHIRDefinitions.fishForFHIR f (resolveAlias this item) types = Some raw).
Proof.
  unfold fishForFHIR. destruct (fhir this) as [f|].
  - destruct (FHIRDefinitions.fishForPredefinedResource f (resolveAlias this item) types)
      as [found|] eqn:Hpre.
    + intros H. inversion H. split; [reflexivity|]. intros raw Hraw.
      inversion Hraw. subst. exists f. auto.
    + destruct (pkg this) as [p|].
      * destruct (Package.fishForFHIR p (resolveAlias this item) types)
          as [found|] eqn:Hpkg.
        -- intros H. inversion H. split; [reflexivity|]. intros raw Hraw.
           inversion Hraw. subst. exists f. split; [reflexivity|].
           right. left. exists p. auto.
        -- destruct (match tank this with
                     | Some t => FSHTank.fish t (resolveAlias this item) types
                     | None => None
                     end); intros H; inversion H; (split; [reflexivity|]);
             intros raw Hraw; inversion Hraw.
           exists f. split; [reflexivity|]. right. right. first [assumption|reflexivity].
      * destruct (match tank this with
                  | Some t => FSHTank.fish t (resolveAlias this item) types
                  | None => None
                  end); intros H; inversion H; (split; [reflexivity|]);
          intros raw Hraw; inversion Hraw.
        exists f. split; [reflexivity|]. right. right. first [assumption|reflexivity].
  - intros H. inversion H. split; [reflexivity|]. intros raw Hraw. discriminate Hraw.
Qed.

End OperationFacts.

Section TankMatches.
Context {Type_ RawDefinition SourceInfo : Type}.
Variable this : MasterFisher Type_ RawDefinition SourceInfo.

Lemma tank_of_fishables (t : FSHTank.t Type_ SourceInfo) :
  In (OfFSHTank t) (fishables this) -> tank this = Some t.
Proof.
  unfold fishables.
  destruct (pkg this), (tank this), (fhir this); simpl; intros H;
    repeat (destruct H as [H|H]; [inversion H; reflexivity|]); destruct H.
Qed.

Lemma package_misses_before_tank (t : FSHTank.t Type_ SourceInfo) (m : Metadata)
  (item : string) (types : list Type_) (p : Package.t Type_ RawDefinition) :
  firstMatch (fishables this) item types = Some (OfFSHTank t, m) ->
  pkg this = Some p ->
  Package.fishForMetadata p item types = None.
Proof.
  intros Hmatch Hp. rewrite firstMatch_fishables, Hp in Hmatch.
  destruct (Package.fishForMetadata p item types); [discriminate Hmatch|reflexivity].
Qed.

(** X3.  The two single-result lookups agree on what is still only in the
    tank.  When neither fast-path index of the FHIR definitions matches the
    identifier (not [fishForPredefinedResource], not
    [fishForPredefinedResourceMetadata]), [fishForMetadata] takes its record
    from the tank (first match in the tank), the tank holds the definition it
    describes, and the package has no definition where it has no metadata,
    then [fishForFHIR] returns [undefined], whatever [fishForFHIR] of the FHIR
    definitions holds under the identifier; and the record [fishForMetadata]
    returns has the id, name, parent and instanceUsage of the tank's. *)
Theorem fishForFHIR_agrees_with_tank_metadata
  (item : string) (types : list Type_)
  (f : FHIRDefinitions.t Type_ RawDefinition) (t : FSHTank.t Type_ SourceInfo)
  (m : Metadata) :
  fhir this = Some f ->
  FHIRDefinitions.fishForPredefinedResource f (resolveAlias this item) types = None ->
  FHIRDefinitions.fishForPredefinedResourceMetadata f (resolveAlias this item) types
    = None ->
  firstMatch (fishables this) (resolveAlias this item) types = Some (OfFSHTank t, m) ->
  FSHTank.fish t (resolveAlias this item) types <> None ->
  (forall p, pkg this = Some p ->
             Package.fishForMetadata p (resolveAlias this item) types = None ->
             Package.fishForFHIR p (resolveAlias this item) types = None) ->
  fishForFHIR this item types = (Returned None, [])
  /\ forall fuel r d,
      fishForMetadata this fuel item types = (Returned (Some r), d) ->
      sameIdentity m r.
Proof.
  intros Hf Hpre Hprem Hmatch Hfish Hpkg. split.
  - pose proof (firstMatch_Some _ _ _ Hmatch) as [Hin _].
    apply tank_of_fishables in Hin.
    unfold fishForFHIR. rewrite Hf, Hpre, Hin.
    destruct (FSHTank.fish t (resolveAlias this item) types) as [e|];
      [|contradiction].
    destruct (pkg this) as [p|] eqn:Hp; [|reflexivity].
    rewrite (Hpkg p eq_refl (package_misses_before_tank _ _ Hmatch Hp)).
    reflexivity.
  - intros fuel r d H. rewrite fishForMetadata_unfold, Hf, Hprem, Hmatch in H.
    split_bind H. inversion H. subst.
    apply fixMetadata_returned in Hrun.
    destruct Hrun as (m' & Hadd & (Hid & Hname & Hpar & Hiu) & _).
    destruct (addUrl_returned this _ Hadd)
      as (_ & (Hid' & Hname' & _ & _ & Hpar' & Hiu') & _).
    repeat split; congruence.
Qed.

(** X17.  [fishForMetadata] on a tank match that needs no resourceType
    backfill, for a resolver with a package: the result is the tank's record
    with the sdType the parent walk returned and the url repaired, and the log
    is the log of the walk. *)
Theorem fishForMetadata_of_tank_match
  (item : string) (types : list Type_) (fuel : nat)
  (f : FHIRDefinitions.t Type_ RawDefinition) (p : Package.t Type_ RawDefinition)
  (t : FSHTank.t Type_ SourceInfo) (m : Metadata)
  (sd : option string) (d : list (Diagnostic SourceInfo)) :
  fhir this = Some f -> pkg this = Some p ->
  FHIRDefinitions.fishForPredefinedResourceMetadata f (resolveAlias this item) types
    = None ->
  firstMatch (fishables this) (resolveAlias this item) types = Some (OfFSHTank t, m) ->
  (falsy (resourceType m) = true ->
   instanceOfFor t m (resolveAlias this item) types = None) ->
  findSdType this fuel m types (fishables this) = (Returned sd, d) ->
  fishForMetadata this fuel item types
  = (Returned (Some (set_url (set_sdType m sd)
                       (urlAfterRepair (Package.canonical p) (set_sdType m sd)))), d).
Proof.
  intros Hf Hp Hpre Hmatch Hinst Hwalk.
  rewrite fishForMetadata_unfold, Hf, Hpre, Hmatch.
  rewrite (@fixMetadata_tank_no_backfill _ _ _ this _ _ t p m _ _ _ _ _
             Hp Hwalk Hinst).
  simpl. rewrite app_nil_r. reflexivity.
Qed.

(** X10.  The resourceType backfill.  A tank match without resourceType whose
    source entity is an [Instance]: [fishForMetadata] looks up the metadata of
    its [instanceOf] (with no type filter) and returns the record with the
    sdType of that metadata as its resourceType, the log of the walk followed
    by the log of that lookup.  The url is synthesized from the backfilled
    resourceType; when the lookup finds nothing, the resourceType stays unset
    and the url has [undefined] in its place. *)
Theorem resourceType_backfilled_from_instanceOf
  (item : string) (types : list Type_) (fuel : nat)
  (f : FHIRDefinitions.t Type_ RawDefinition) (p : Package.t Type_ RawDefinition)
  (t : FSHTank.t Type_ SourceInfo) (m : Metadata)
  (sd : option string) (d1 d2 : list (Diagnostic SourceInfo))
  (instanceOf : string) (found : option Metadata) :
  fhir this = Some f -> pkg this = Some p ->
  FHIRDefinitions.fishForPredefinedResourceMetadata f (resolveAlias this item) types
    = None ->
  firstMatch (fishables this) (resolveAlias this item) types = Some (OfFSHTank t, m) ->
  findSdType this (S fuel) m types (fishables this) = (Returned sd, d1) ->
  falsy (resourceType m) = true ->
  instanceOfFor t m (resolveAlias this item) types = Some instanceOf ->
  fishForMetadata this fuel instanceOf [] = (Returned found, d2) ->
  let backfilled := match found with Some x => sdType x | None => None end in
  let repaired := set_resourceType (set_sdType m sd) backfilled in
  fishForMetadata this (S fuel) item types
  = (Returned (Some (set_url repaired
                       (urlAfterRepair (Package.canonical p) repaired))),
     d1 ++ d2)
  /\ (url m = None -> instanceUsage m <> Some "Inline" ->
      urlAfterRepair (Package.canonical p) repaired
      = Some (Package.canonical p ++ "/" ++ interpolate backfilled ++ "/" ++ id m)%string)
  /\ (found = None -> interpolate backfilled = "undefined").
Proof.
  intros Hf Hp Hpre Hmatch Hwalk Hfalsy Hinst Hfound backfilled repaired.
  repeat split.
  - rewrite fishForMetadata_unfold, Hf, Hpre, Hmatch.
    unfold fixMetadata, fixTankMetadata.
    rewrite (bind_of_returned _ Hwalk).
    change (resourceType (set_sdType m sd)) with (resourceType m).
    rewrite Hfalsy, instanceOfFor_set_sdType, Hinst.
    change (nestedLookup this (S fuel) instanceOf)
      with (fishForMetadata this fuel instanceOf []).
    rewrite Hfound. simpl.
    fold backfilled. fold repaired.
    rewrite (addUrl_with_package this repaired Hp). simpl.
    rewrite !app_nil_r. reflexivity.
  - intros Hurl Hinline. unfold urlAfterRepair.
    change (url repaired) with (url m).
    change (instanceUsage repaired) with (instanceUsage m).
    rewrite Hurl. simpl.
    destruct (instanceUsage m) as [usage|]; [|reflexivity]. simpl.
    destruct (String.eqb usage "Inline") eqn:E; [|reflexivity].
    apply String.eqb_eq in E. subst. congruence.
  - intros ->. reflexivity.
Qed.

(** X11.  An instance that is its own [instanceOf].  When the tank match for
    an identifier has no resourceType, its walk ends at once, and the
    [instanceOf] of its source entity resolves to the identifier itself, then
    [fishForMetadata] (called without types, as [fixMetadata] calls it) calls
    itself again on the same identifier and so on: it produces no result,
    whatever the fuel. *)
Theorem self_referential_instance_never_returns
  (item : string) (f : FHIRDefinitions.t Type_ RawDefinition)
  (t : FSHTank.t Type_ SourceInfo) (m : Metadata) (instanceOf : string) :
  fhir this = Some f ->
  FHIRDefinitions.fishForPredefinedResourceMetadata f (resolveAlias this item) []
    = None ->
  firstMatch (fishables this) (resolveAlias this item) [] = Some (OfFSHTank t, m) ->
  sdType m <> None \/ parent m = None ->
  falsy (resourceType m) = true ->
  instanceOfFor t m (resolveAlias this item) [] = Some instanceOf ->
  resolveAlias this instanceOf = resolveAlias this item ->
  forall fuel, fishForMetadata this fuel item [] = (OutOfFuel, []).
Proof.
  intros Hf Hpre Hmatch Hwalk Hfalsy Hinst Hself fuel.
  assert (Hall : forall item0,
             resolveAlias this item0 = resolveAlias this item ->
             fishForMetadata this fuel item0 [] = (OutOfFuel, [])).
  { induction fuel as [|fuel IH]; intros item0 Hsame;
      rewrite fishForMetadata_unfold, Hsame, Hf, Hpre, Hmatch;
      unfold fixMetadata, fixTankMetadata, findSdType;
      rewrite (findSdType_loop_done this _ [] (fishables this) [m] Hwalk);
      unfold bind at 3; unfold ret at 1;
      change (resourceType (set_sdType m (sdType m))) with (resourceType m);
      rewrite Hfalsy, instanceOfFor_set_sdType, Hinst.
    - reflexivity.
    - change (nestedLookup this (S fuel) instanceOf)
        with (fishForMetadata this fuel instanceOf []).
      rewrite (IH instanceOf Hself). reflexivity. }
  apply Hall. reflexivity.
Qed.

End TankMatches.

Section MultiResults.
Context {Type_ RawDefinition SourceInfo : Type}.
Variable this : MasterFisher Type_ RawDefinition SourceInfo.

Lemma Forall2_pick_l (A B : Type) (R : A -> B -> Prop) (l : list A) (l' : list B)
  (x : A) :
  Forall2 R l l' -> In x l -> exists y, In y l' /\ R x y.
Proof.
  induction 1 as [|x' y l l' Hxy _ IH]; intros Hin; [destruct Hin|].
  destruct Hin as [<-|Hin].
  - exists y. split; [left; reflexivity|exact Hxy].
  - destruct (IH Hin) as (y' & Hy' & HR). exists y'. split; [right|]; assumption.
Qed.

(** X12.  The single-result lookup is one of the multi-result lookup's
    results.  When each catalog lists among its [fishForMetadatas] matches the
    record its [fishForMetadata] returns (the fast-path index likewise), a
    record [fishForMetadata] returns for an identifier is in the array
    [fishForMetadatas] returns for it. *)
Theorem fishForMetadata_result_is_among_fishForMetadatas
  (fuel : nat) (item : string) (types : list Type_) (r : Metadata)
  (l : list Metadata) (d d' : list (Diagnostic SourceInfo)) :
  (forall f m,
      fhir this = Some f ->
      FHIRDefinitions.fishForPredefinedResourceMetadata f (resolveAlias this item) types
        = Some m ->
      In m (FHIRDefinitions.fishForPredefinedResourceMetadatas f
              (resolveAlias this item) types)) ->
  (forall fishable m,
      In fishable (fishables this) ->
      Fishable_fishForMetadata fishable (resolveAlias this item) types = Some m ->
      In m (Fishable_fishForMetadatas fishable (resolveAlias this item) types)) ->
  fishForMetadata this fuel item types = (Returned (Some r), d) ->
  fishForMetadatas this fuel item types = (Returned l, d') ->
  In r l.
Proof.
  intros Hfast Hcat Hone Hall.
  destruct (@fishForMetadata_origin _ _ _ this fuel item types r d Hone)
    as (f & Hf & Horigin).
  unfold fishForMetadatas in Hall. rewrite Hf in Hall.
  split_bind Hall. inversion Hall. subst l.
  rewrite uniqWith_uniqInto. apply uniqInto_In. right. apply in_or_app.
  destruct Horigin as [[Hpre _]|(_ & fishable & m & Hmatch & Hfix)].
  - left. apply (Hfast f r Hf Hpre).
  - right. apply firstMatch_Some in Hmatch. destruct Hmatch as [Hin Hget].
    apply gatherMetadatas_returned in Hrun. destruct Hrun as (parts & -> & Hparts).
    destruct (Forall2_pick_l fishable Hparts Hin) as (part & Hpart & Hrel).
    destruct (Forall2_pick_l m Hrel (Hcat fishable m Hin Hget))
      as (r' & Hr' & dx & Hfix').
    rewrite Hfix in Hfix'. inversion Hfix'. subst r'.
    apply in_concat. exists part. auto.
Qed.

Lemma uniqInto_distinct (array kept : list Metadata) :
  NoDup (kept ++ array) -> uniqInto kept array = kept ++ array.
Proof.
  revert kept. induction array as [|x array IH]; intros kept Hnodup.
  - simpl. rewrite app_nil_r. reflexivity.
  - unfold uniqInto. simpl. fold (uniqInto kept array).
    destruct (existsb (fun seen => isEqual x seen) kept) eqn:E.
    + apply isEqual_seen in E. apply NoDup_remove_2 in Hnodup.
      exfalso. apply Hnodup. apply in_or_app. left. exact E.
    + fold (uniqInto (kept ++ [x]) array). rewrite IH; rewrite <- app_assoc;
        [reflexivity|exact Hnodup].
Qed.

Lemma uniqInto_length (array kept : list Metadata) :
  length (uniqInto kept array) <= length kept + length array.
Proof.
  revert kept. induction array as [|x array IH]; intros kept.
  - simpl. lia.
  - unfold uniqInto. simpl.
    destruct (existsb (fun seen => isEqual x seen) kept).
    + fold (uniqInto kept array). specialize (IH kept). lia.
    + fold (uniqInto (kept ++ [x]) array). specialize (IH (kept ++ [x])).
      rewrite length_app in IH. simpl in IH. lia.
Qed.

(** X13.  [fishForMetadatas] loses nothing but repetitions.  Its result is
    never longer than the gathered sequence (the fast-path matches, then the
    repaired matches of the fishables); and when no record occurs twice in
    the gathered sequence, the result is that sequence, in the same order. *)
Theorem fishForMetadatas_drops_only_repetitions
  (fuel : nat) (item : string) (types : list Type_) (l : list Metadata)
  (d : list (Diagnostic SourceInfo)) :
  fishForMetadatas this fuel item types = (Returned l, d) ->
  exists f pushed,
    fhir this = Some f
    /\ gatherMetadatas this fuel (resolveAlias this item) types
         (fishables this) (fishables this) = (Returned pushed, d)
    /\ let gathered :=
         FHIRDefinitions.fishForPredefinedResourceMetadatas f
           (resolveAlias this item) types ++ pushed in
       length l <= length gathered
       /\ (NoDup gathered -> l = gathered).
Proof.
  unfold fishForMetadatas. intros H.
  destruct (fhir this) as [f|]; [|discriminate].
  split_bind H. inversion H. subst. exists f, a.
  split; [reflexivity|]. rewrite app_nil_r. split; [exact Hrun|].
  cbv zeta. rewrite uniqWith_uniqInto. split.
  - apply (uniqInto_length _ []).
  - intros Hnodup. apply (uniqInto_distinct _ [] Hnodup).
Qed.

(** X14.  Only the alias-resolved identifier matters: on two identifiers
    that [this.tank?.resolveAlias(item) ?? item] maps to the same one, so on an
    alias and its target when the target is no alias itself, each of the three
    operations gives the same outcome and the same log. *)
Theorem operations_depend_on_resolved_identifier_only
  (a b : string) (types : list Type_) (fuel : nat) :
  resolveAlias this a = resolveAlias this b ->
  fishForFHIR this a types = fishForFHIR this b types
  /\ fishForMetadata this fuel a types = fishForMetadata this fuel b types
  /\ fishForMetadatas this fuel a types = fishForMetadatas this fuel b types.
Proof.
  intros Hsame. repeat split.
  - unfold fishForFHIR. rewrite Hsame. reflexivity.
  - rewrite !fishForMetadata_unfold, Hsame. reflexivity.
  - unfold fishForMetadatas. rewrite Hsame. reflexivity.
Qed.

End MultiResults.

Section DefaultVersion.
Context {Type_ RawDefinition SourceInfo : Type}.
Variable fhirVersionOf : RawDefinition -> option string.
Variable configFhirVersion : FSHTank.t Type_ SourceInfo -> option (list string).

(** X15.  The default FHIR version of the constructor.  It is the
    [fhirVersion] of what the FHIR definitions themselves return for
    [StructureDefinition] whenever there is one, whatever the tank's
    configuration; it is absent exactly when that gives no version and the
    tank (if any) has no first configured version; and it does not depend on
    the package. *)
Theorem defaultFHIRVersion_prefers_fhir_definitions
  (this : MasterFisher Type_ RawDefinition SourceInfo) :
  (forall f definition version,
      fhir this = Some f ->
      FHIRDefinitions.fishForFHIR f "StructureDefinition" [] = Some definition ->
      fhirVersionOf definition = Some version ->
      defaultFHIRVersion fhirVersionOf configFhirVersion this = Some version)
  /\ (defaultFHIRVersion fhirVersionOf configFhirVersion this = None <->
      (forall f definition,
          fhir this = Some f ->
          FHIRDefinitions.fishForFHIR f "StructureDefinition" [] = Some definition ->
          fhirVersionOf definition = None)
      /\ (forall t version rest,
             tank this = Some t -> configFhirVersion t <> Some (version :: rest)))
  /\ (forall otherPackage,
         defaultFHIRVersion fhirVersionOf configFhirVersion
           (mkMasterFisher (tank this) (fhir this) otherPackage)
         = defaultFHIRVersion fhirVersionOf configFhirVersion this).
Proof.
  split; [|split].
  - intros f definition version Hf Hsd Hv. unfold defaultFHIRVersion.
    rewrite Hf, Hsd, Hv. reflexivity.
  - unfold defaultFHIRVersion. split.
    + intros H. split.
      * intros f definition Hf Hsd. rewrite Hf, Hsd in H.
        destruct (fhirVersionOf definition); [discriminate H|reflexivity].
      * intros t version rest Ht Hcfg. rewrite Ht, Hcfg in H.
        destruct (match fhir this with
                  | Some f =>
                      match FHIRDefinitions.fishForFHIR f "StructureDefinition" [] with
                      | Some definition => fhirVersionOf definition
                      | None => None
                      end
                  | None => None
                  end); discriminate H.
    + intros [Hfhir Htank].
      assert (Hfallback :
                match tank this with
                | Some t =>
                    match configFhirVersion t with
                    | Some (version :: _) => Some version
                    | _ => None
                    end
                | None => None
                end = None).
      { destruct (tank this) as [t|]; [|reflexivity].
        destruct (configFhirVersion t) as [[|version rest]|] eqn:Hcfg; try reflexivity.
        exfalso. exact (Htank t version rest eq_refl Hcfg). }
      rewrite Hfallback.
      destruct (fhir this) as [f|]; [|reflexivity].
      destruct (FHIRDefinitions.fishForFHIR f "StructureDefinition" [])
        as [definition|] eqn:Hsd; [|reflexivity].
      rewrite (Hfhir f definition eq_refl Hsd). reflexivity.
  - intros otherPackage. destruct this. reflexivity.
Qed.

End DefaultVersion.

Section WithoutTank.
Context {Type_ RawDefinition SourceInfo : Type}.
Variable this : MasterFisher Type_ RawDefinition SourceInfo.

Lemma bind_silent (A B : Type) (m : Run SourceInfo A) (k : A -> Run SourceInfo B) :
  snd m = [] -> (forall a, snd (k a) = []) -> snd (bind m k) = [].
Proof.
  unfold bind. destruct m as [[a| |] d]; simpl; intros -> Hk; try reflexivity.
  specialize (Hk a). destruct (k a) as [r d']. simpl in *. exact Hk.
Qed.

Lemma mapM_silent (A B : Type) (f : A -> Run SourceInfo B) (l : list A) :
  (forall x, snd (f x) = []) -> snd (mapM f l) = [].
Proof.
  intros Hf. induction l as [|x l IH]; [reflexivity|]. simpl.
  apply bind_silent; [apply Hf|]. intros y.
  apply bind_silent; [exact IH|]. reflexivity.
Qed.

Lemma addUrl_silent (m : Metadata) : snd (addUrl this m) = [].
Proof.
  unfold addUrl.
  destruct (falsy (url m) && negb (strictEq (instanceUsage m) (Some "Inline")));
    [destruct (pkg this)|]; reflexivity.
Qed.

(** X18.  A resolver without a tank resolves no alias and logs nothing:
    every identifier is looked up as it is, and each of the three operations
    ends with an empty log, whatever the catalogs hold. *)
Theorem without_tank_no_alias_and_no_diagnostic
  (item : string) (types : list Type_) (fuel : nat) :
  tank this = None ->
  resolveAlias this item = item
  /\ snd (fishForFHIR this item types) = []
  /\ snd (fishForMetadata this fuel item types) = []
  /\ snd (fishForMetadatas this fuel item types) = [].
Proof.
  intros Ht.
  assert (Hnotank : forall fishable,
             In fishable (fishables this) -> forall t, fishable <> OfFSHTank t).
  { intros fishable Hin t ->. apply tank_of_fishables in Hin. congruence. }
  split; [unfold resolveAlias; rewrite Ht; reflexivity|]. split; [|split].
  - unfold fishForFHIR.
    repeat match goal with
           | |- context [match ?x with _ => _ end] => destruct x
           end; reflexivity.
  - rewrite fishForMetadata_unfold.
    destruct (fhir this) as [f|]; [|reflexivity].
    destruct (FHIRDefinitions.fishForPredefinedResourceMetadata f
                (resolveAlias this item) types); [reflexivity|].
    destruct (firstMatch (fishables this) (resolveAlias this item) types)
      as [[fishable m]|] eqn:E; [|reflexivity].
    apply firstMatch_Some in E. destruct E as [Hin _].
    rewrite (fixMetadata_not_tank this _ _ _ _ _ _ (Hnotank fishable Hin)).
    apply bind_silent; [apply addUrl_silent|reflexivity].
  - unfold fishForMetadatas. destruct (fhir this) as [f|]; [|reflexivity].
    apply bind_silent; [|reflexivity].
    revert Hnotank. generalize (fishables this) at 1 3. intros fs.
    induction fs as [|fishable fs IH]; intros Hnotank; [reflexivity|]. simpl.
    apply bind_silent.
    + apply mapM_silent. intros m.
      rewrite (fixMetadata_not_tank this _ _ _ _ _ _
                 (Hnotank fishable (or_introl eq_refl))).
      apply addUrl_silent.
    + intros results. apply bind_silent; [|reflexivity].
      apply IH. intros fb Hin. apply Hnotank. right. exact Hin.
Qed.

(** X19.  [fishForMetadata] returns for a tank match that needs no
    resourceType backfill, when the resolver has its FHIR definitions and its
    package and the urls of the match and of every record the fishables can
    return are among finitely many [urls]: there is one record and one log,
    of at most one error, that it returns for every fuel from the number of
    those urls on. *)
Theorem fishForMetadata_of_tank_match_returns
  (item : string) (types : list Type_) (urls : list (option string))
  (f : FHIRDefinitions.t Type_ RawDefinition) (p : Package.t Type_ RawDefinition)
  (t : FSHTank.t Type_ SourceInfo) (m : Metadata) :
  fhir this = Some f -> pkg this = Some p ->
  FHIRDefinitions.fishForPredefinedResourceMetadata f (resolveAlias this item) types
    = None ->
  firstMatch (fishables this) (resolveAlias this item) types = Some (OfFSHTank t, m) ->
  (falsy (resourceType m) = true ->
   instanceOfFor t m (resolveAlias this item) types = None) ->
  (forall q fishable m',
      firstMatch (fishables this) q types = Some (fishable, m') -> In (url m') urls) ->
  In (url m) urls ->
  exists r d,
    length d <= 1
    /\ sameIdentity m r
    /\ forall fuel, length urls <= fuel ->
                    fishForMetadata this fuel item types = (Returned (Some r), d).
Proof.
  intros Hf Hp Hpre Hmatch Hinst Hurls Hm.
  destruct (@findSdType_ends _ _ _ this urls m types (fishables this) Hurls Hm)
    as (sd & d & Hwalk).
  exists (set_url (set_sdType m sd)
            (urlAfterRepair (Package.canonical p) (set_sdType m sd))), d.
  split; [|split].
  - destruct (findSdType_loop_log this _ _ _ _ _ _ (Hwalk (length urls) (le_n _)))
      as [->|(_ & diagnostic & ->)]; simpl; lia.
  - destruct (set_url_sameExceptUrl (set_sdType m sd)
                (urlAfterRepair (Package.canonical p) (set_sdType m sd)))
      as (Hid & Hname & _ & _ & Hpar & Husage).
    repeat split; assumption.
  - intros fuel Hle.
    rewrite fishForMetadata_unfold, Hf, Hpre, Hmatch.
    rewrite (@fixMetadata_tank_no_backfill _ _ _ this _ _ t p m _ _ _ _ _
               Hp (Hwalk fuel Hle) Hinst).
    simpl. rewrite app_nil_r. reflexivity.
Qed.

End WithoutTank.

(** * The further properties on the concrete scenarios *)

(** Closes [NoDup] of a concrete list of urls. *)
Ltac distinct_urls :=
  simpl; repeat constructor; simpl; intuition discriminate.

(** Closes [linked] of a concrete chain. *)
Ltac concrete_chain :=
  cbn [linked]; repeat split; try reflexivity;
  try (do 2 eexists; split; reflexivity).

(** The chain resolver: [A] is returned with fuel for its walk, and the run
    has not ended with less. *)
Lemma no_absent_catalog_error_with_fhir_and_package_witness :
  ((exists r d, fishForMetadata chainResolver 2 "A" [] = (Returned r, d))
   \/ (exists d, fishForMetadata chainResolver 2 "A" [] = (OutOfFuel, d)))
  /\ ((exists r d, fishForMetadata chainResolver 1 "A" [] = (Returned r, d))
      \/ (exists d, fishForMetadata chainResolver 1 "A" [] = (OutOfFuel, d)))
  /\ exists raw, fishForFHIR chainResolver "A" [] = (Returned raw, []).
Proof.
  split; [|split].
  - exact (proj1 (proj2 (@no_absent_catalog_error_with_fhir_and_package _ _ _
                           chainResolver observationFHIR emptyPackage
                           eq_refl eq_refl 2 "A" []))).
  - exact (proj1 (proj2 (@no_absent_catalog_error_with_fhir_and_package _ _ _
                           chainResolver observationFHIR emptyPackage
                           eq_refl eq_refl 1 "A" []))).
  - exact (proj1 (@no_absent_catalog_error_with_fhir_and_package _ _ _
                    chainResolver observationFHIR emptyPackage
                    eq_refl eq_refl 0 "A" [])).
Defined.

(** [Nothing] is known to no catalog of the chain resolver. *)
Lemma unknown_identifier_is_not_found_silently_witness :
  fishForFHIR chainResolver "Nothing" [] = (Returned None, [])
  /\ fishForMetadata chainResolver 0 "Nothing" [] = (Returned None, [])
  /\ fishForMetadatas chainResolver 0 "Nothing" [] = (Returned [], []).
Proof.
  apply (@unknown_identifier_is_not_found_silently _ _ _ chainResolver
           observationFHIR "Nothing" [] 0); try reflexivity.
  - intros p H. inversion H. reflexivity.
  - intros t H. inversion H. reflexivity.
  - intros fishable [<-|[<-|[<-|[]]]]; split; reflexivity.
Defined.

(** The tank's [Patient], under its alias: metadata from the tank, no
    definition, though the FHIR definitions have a [Patient]. *)
Lemma fishForFHIR_agrees_with_tank_metadata_witness :
  fishForFHIR tankOnlyResolver "MyAlias" [] = (Returned None, [])
  /\ exists r,
      fishForMetadata tankOnlyResolver 0 "MyAlias" [] = (Returned (Some r), [])
      /\ name r = "Patient".
Proof.
  destruct (@fishForFHIR_agrees_with_tank_metadata _ _ _ tankOnlyResolver
              "MyAlias" []
              (listFHIR [] [] [("Patient", "fhir:Patient")] [hl7Patient])
              (listTank [("MyAlias", "Patient")] [entityOf "Patient"]
                 [tankProfile "Patient"
                    (Some "http://example.org/StructureDefinition/Patient") None])
              (tankProfile "Patient"
                 (Some "http://example.org/StructureDefinition/Patient") None)
              eq_refl eq_refl eq_refl eq_refl)
    as [Hraw Hmeta].
  - discriminate.
  - intros p H _. inversion H. reflexivity.
  - split; [exact Hraw|]. eexists. split; [reflexivity|].
    match goal with
    | |- name ?r = _ => destruct (Hmeta 0 r [] eq_refl) as (_ & Hname & _)
    end.
    exact Hname.
Defined.

(** [P1] under [P2] under [P3] under [P4] under [Observation]. *)
Lemma findSdType_follows_chain_to_known_type_witness :
  findSdType deepResolver 4 (deepProfile "P1" "P2") [] (fishables deepResolver)
  = (Returned (Some "Observation"), []).
Proof.
  apply (@findSdType_follows_chain_to_known_type _ _ _ deepResolver []
           (fishables deepResolver) (deepProfile "P1" "P2")
           [deepProfile "P2" "P3"; deepProfile "P3" "P4";
            deepProfile "P4" "Observation"; hl7Observation]
           "Observation" 0).
  - concrete_chain.
  - distinct_urls.
  - reflexivity.
Defined.

(** [Q1] under [Q2] under [Q3] under [Q1]. *)
Lemma findSdType_reports_cycle_of_any_length_witness :
  findSdType ringResolver 3 (deepProfile "Q1" "Q2") [] (fishables ringResolver)
  = (Returned None,
     [mkDiagnostic
        "Circular dependency detected on parent relationships: Q1 < Q2 < Q3 < Q1"
        (Some "Q1.fsh")]).
Proof.
  destruct (@findSdType_reports_cycle_of_any_length _ _ _ ringResolver []
              (fishables ringResolver) (deepProfile "Q1" "Q2")
              [deepProfile "Q2" "Q3"; deepProfile "Q3" "Q1"] "Q1"
              (OfFSHTank ringTank) (deepProfile "Q1" "Q2") 0)
    as [Hwalk _].
  - concrete_chain.
  - distinct_urls.
  - reflexivity.
  - reflexivity.
  - reflexivity.
  - left. reflexivity.
  - exact Hwalk.
Defined.

(** [Orphan], whose parent [Nowhere] no catalog knows. *)
Lemma findSdType_ends_silently_at_dead_end_witness :
  findSdType orphanResolver 1 (deepProfile "Orphan" "Nowhere") []
    (fishables orphanResolver)
  = (Returned None, []).
Proof.
  apply (@findSdType_ends_silently_at_dead_end _ _ _ orphanResolver []
           (fishables orphanResolver) (deepProfile "Orphan" "Nowhere") [] 0).
  - concrete_chain.
  - distinct_urls.
  - reflexivity.
  - right. exists "Nowhere". split; [reflexivity|].
    intros fishable [<-|[<-|[<-|[]]]]; reflexivity.
Defined.

(** The url of whatever a list-backed fishable returns is the url of one of
    its records. *)
Ltac listed_url H :=
  apply firstMatch_Some in H; destruct H as [Hin H];
  simpl in Hin;
  repeat (destruct Hin as [<-|Hin]; [|]); try destruct Hin;
  cbv beta iota delta [Fishable_fishForMetadata
                         FSHTank.fishForMetadata Package.fishForMetadata
                         FHIRDefinitions.fishForMetadata
                         listTank listPackage listFHIR
                         chainTank observationFHIR emptyPackage] in H;
  apply find_some in H; destruct H as [H _]; simpl in H;
  repeat (destruct H as [<-|H]; [simpl; tauto|]); destruct H.

(** The chain resolver holds three urls; every walk in it ends within three
    iterations. *)
Lemma findSdType_ends_when_urls_are_finite_witness :
  exists sd d,
    forall fuel,
      3 <= fuel ->
      findSdType chainResolver fuel chainA [] (fishables chainResolver)
      = (Returned sd, d).
Proof.
  apply (@findSdType_ends_when_urls_are_finite _ _ _ chainResolver
           [url chainA; url chainB; url hl7Observation] chainA []
           (fishables chainResolver)).
  - intros p fishable m H. listed_url H.
  - left. reflexivity.
Defined.

(** The walk from [A] of the cycle resolver logs one error and returns an
    unknown sdType. *)
Lemma findSdType_logs_at_most_one_error_witness :
  [mkDiagnostic "Circular dependency detected on parent relationships: A < B < A"
     (Some "A.fsh")] = []
  \/ (Returned (@None string) = Returned None
      /\ exists diagnostic,
          [mkDiagnostic "Circular dependency detected on parent relationships: A < B < A"
             (Some "A.fsh")] = [diagnostic]).
Proof.
  exact (@findSdType_logs_at_most_one_error _ _ _ cycleResolver 2 cycleA []
           (fishables cycleResolver) _ _ eq_refl).
Defined.

(** [Observation], the sdType found for [A], is the sdType of a record of the
    catalogs. *)
Lemma findSdType_returns_a_catalog_sdType_witness :
  sdType chainA = Some "Observation"
  \/ exists fishable p m,
      In fishable (fishables chainResolver)
      /\ Fishable_fishForMetadata fishable p [] = Some m
      /\ sdType m = Some "Observation".
Proof.
  exact (@findSdType_returns_a_catalog_sdType _ _ _ chainResolver 2 chainA []
           (fishables chainResolver) "Observation" [] eq_refl).
Defined.

(** The instance [AnA] of the profile [A]: its resourceType is the sdType
    derived for [A].  The instance [AnX] of an unknown type: no resourceType,
    and [undefined] in its url. *)
Lemma resourceType_backfilled_from_instanceOf_witness :
  (exists r,
      fishForMetadata instanceOfProfileResolver 3 "AnA" [] = (Returned (Some r), [])
      /\ resourceType r = Some "Observation"
      /\ url r = Some "http://example.org/Observation/a-1")
  /\ (exists r,
      fishForMetadata instanceOfUnknownResolver 1 "AnX" [] = (Returned (Some r), [])
      /\ resourceType r = None
      /\ url r = Some "http://example.org/undefined/x-1").
Proof.
  split.
  - edestruct (@resourceType_backfilled_from_instanceOf _ _ _ instanceOfProfileResolver
                 "AnA" [] 2)
      as (Hrun & _ & _); try reflexivity.
    eexists. split; [exact Hrun|]. split; reflexivity.
  - edestruct (@resourceType_backfilled_from_instanceOf _ _ _ instanceOfUnknownResolver
                 "AnX" [] 0)
      as (Hrun & _ & _); try reflexivity.
    eexists. split; [exact Hrun|]. split; reflexivity.
Defined.

(** The instance [Foo] of [Foo]. *)
Lemma self_referential_instance_never_returns_witness :
  fishForMetadata selfInstanceResolver 100 "Foo" [] = (OutOfFuel, []).
Proof.
  eapply (@self_referential_instance_never_returns _ _ _ selfInstanceResolver "Foo");
    try reflexivity.
  right. reflexivity.
Defined.

(** The package's [Patient] is the single result and one of the two results. *)
Lemma fishForMetadata_result_is_among_fishForMetadatas_witness :
  fishForMetadata packageFirstResolver 0 "Patient" [] = (Returned (Some localPatient), [])
  /\ fishForMetadatas packageFirstResolver 0 "Patient" []
     = (Returned [localPatient; hl7Patient], [])
  /\ In localPatient [localPatient; hl7Patient].
Proof.
  split; [reflexivity|]. split; [reflexivity|].
  apply (@fishForMetadata_result_is_among_fishForMetadatas _ _ _ packageFirstResolver
           0 "Patient" [] localPatient [localPatient; hl7Patient] [] []).
  - intros f m Hf H. inversion Hf. subst f. discriminate H.
  - intros fishable m [<-|[<-|[]]] H; inversion H; left; reflexivity.
  - reflexivity.
  - reflexivity.
Defined.

(** The four gathered [Patient] records of [duplicateResolver] come back as
    two; the single gathered record of [Orphan] comes back as it is. *)
Lemma fishForMetadatas_drops_only_repetitions_witness :
  (exists pushed,
      gatherMetadatas duplicateResolver 0 "Patient" []
        (fishables duplicateResolver) (fishables duplicateResolver)
      = (Returned pushed, [])
      /\ length [hl7Patient; localPatient] <= length (hl7Patient :: pushed))
  /\ exists l pushed,
      fishForMetadatas orphanResolver 1 "Orphan" [] = (Returned l, [])
      /\ gatherMetadatas orphanResolver 1 "Orphan" []
           (fishables orphanResolver) (fishables orphanResolver)
         = (Returned pushed, [])
      /\ l = pushed.
Proof.
  split.
  - destruct (@fishForMetadatas_drops_only_repetitions _ _ _ duplicateResolver
                0 "Patient" [] [hl7Patient; localPatient] [] eq_refl)
      as (f & pushed & Hf & Hgather & Hlen & _).
    inversion Hf. subst f. exists pushed. split; [exact Hgather|exact Hlen].
  - destruct (@fishForMetadatas_drops_only_repetitions _ _ _ orphanResolver
                1 "Orphan" [] _ [] eq_refl)
      as (f & pushed & Hf & Hgather & _ & Hsame).
    inversion Hf. subst f. eexists. exists pushed.
    split; [reflexivity|]. split; [exact Hgather|].
    apply Hsame. vm_compute in Hgather. inversion Hgather. subst pushed.
    simpl. repeat constructor. intros [].
Defined.

(** [MyAlias] and its target [Patient] are the same to the three operations. *)
Lemma operations_depend_on_resolved_identifier_only_witness :
  fishForFHIR tankOnlyResolver "MyAlias" [] = fishForFHIR tankOnlyResolver "Patient" []
  /\ fishForMetadata tankOnlyResolver 1 "MyAlias" []
     = fishForMetadata tankOnlyResolver 1 "Patient" []
  /\ fishForMetadatas tankOnlyResolver 1 "MyAlias" []
     = fishForMetadatas tankOnlyResolver 1 "Patient" [].
Proof.
  exact (@operations_depend_on_resolved_identifier_only _ _ _ tankOnlyResolver
           "MyAlias" "Patient" [] 1 eq_refl).
Defined.

(** FHIR definitions whose [StructureDefinition] says [4.0.1], with a tank
    configured for [5.0.0]. *)
Lemma defaultFHIRVersion_prefers_fhir_definitions_witness :
  defaultFHIRVersion
    (fun raw : string => if String.eqb raw "fhir:StructureDefinition"
                         then Some "4.0.1" else None)
    (fun _ : FSHTank.t unit string => Some ["5.0.0"])
    (mkMasterFisher (Some chainTank)
       (Some (listFHIR [] [] [("StructureDefinition", "fhir:StructureDefinition")] []))
       None)
  = Some "4.0.1".
Proof.
  apply (proj1 (@defaultFHIRVersion_prefers_fhir_definitions unit string string
                  (fun raw : string => if String.eqb raw "fhir:StructureDefinition"
                                       then Some "4.0.1" else None)
                  (fun _ : FSHTank.t unit string => Some ["5.0.0"])
                  (mkMasterFisher (Some chainTank)
                     (Some (listFHIR [] []
                              [("StructureDefinition", "fhir:StructureDefinition")] []))
                     None))
          (listFHIR [] [] [("StructureDefinition", "fhir:StructureDefinition")] [])
          "fhir:StructureDefinition" "4.0.1" eq_refl eq_refl eq_refl).
Defined.

(** The definition returned for [Patient] is the package's. *)
Lemma fishForFHIR_returns_a_catalog_definition_witness :
  exists f,
    fhir packageFirstResolver = Some f
    /\ (FHIRDefinitions.fishForPredefinedResource f "Patient" [] = Some "pkg:Patient"
        \/ (exists p, pkg packageFirstResolver = Some p
              /\ Package.fishForFHIR p "Patient" [] = Some "pkg:Patient")
        \/ FHIRDefinitions.fishForFHIR f "Patient" [] = Some "pkg:Patient").
Proof.
  exact (proj2 (@fishForFHIR_returns_a_catalog_definition _ _ _ packageFirstResolver
                  "Patient" [] _ _ eq_refl) "pkg:Patient" eq_refl).
Defined.

(** [P1], four parents below [Observation]. *)
Lemma fishForMetadata_of_tank_match_witness :
  exists r,
    fishForMetadata deepResolver 4 "P1" [] = (Returned (Some r), [])
    /\ sdType r = Some "Observation".
Proof.
  eexists. split.
  - eapply (@fishForMetadata_of_tank_match _ _ _ deepResolver "P1" [] 4);
      reflexivity.
  - reflexivity.
Defined.

(** The resolver of package and FHIR definitions only. *)
Lemma without_tank_no_alias_and_no_diagnostic_witness :
  resolveAlias packageFirstResolver "Patient" = "Patient"
  /\ snd (fishForFHIR packageFirstResolver "Patient" []) = []
  /\ snd (fishForMetadata packageFirstResolver 1 "Patient" []) = []
  /\ snd (fishForMetadatas packageFirstResolver 1 "Patient" []) = [].
Proof.
  exact (@without_tank_no_alias_and_no_diagnostic _ _ _ packageFirstResolver
           "Patient" [] 1 eq_refl).
Defined.

(** [A] of the chain resolver is returned for every fuel from three on. *)
Lemma fishForMetadata_of_tank_match_returns_witness :
  exists r d,
    length d <= 1
    /\ sameIdentity chainA r
    /\ forall fuel,
        3 <= fuel ->
        fishForMetadata chainResolver fuel "A" [] = (Returned (Some r), d).
Proof.
  eapply (@fishForMetadata_of_tank_match_returns _ _ _ chainResolver "A" []
            [url chainA; url chainB; url hl7Observation]);
    try reflexivity.
  - intros q fishable m' H. listed_url H.
  - left. reflexivity.
Defined.
